(** * condacolab: a shallow embedding of [condacolab.py]

    The module installs a conda distribution on a notebook host and rebinds
    the running interpreter to it.  Everything it does is an effect on the
    host: files, sub-processes, [sys.path], a dictionary passed by the
    caller.  The embedding below makes those effects explicit: a state and
    exception monad [M] over a [State] (disk, [sys.path], the heap of
    dictionaries, a trace of events) that reads an immutable [Host] (the
    network, permissions, [os.environ], [sys.executable],
    [sys.version_info], what the installer script does). *)

From Stdlib Require Import Strings.String Strings.Ascii NArith ZArith Lia.
From Stdlib Require Import Numbers.DecimalString.
From stdpp Require Import gmap strings list fin_maps.

Local Open Scope string_scope.

(** ** Python strings *)

Module Str.

(** Characters that cannot be written inside a literal. *)
Definition nl : string := String (ascii_of_nat 10) EmptyString.
Definition dquote : string := String (ascii_of_nat 34) EmptyString.

(** [sep.join(l)] *)
Fixpoint join (sep : string) (l : list string) : string :=
  match l with
  | [] => EmptyString
  | [x] => x
  | x :: r => x +:+ sep +:+ join sep r
  end.

(** [s.split(c)] for a one-character separator: never returns [[]]. *)
Fixpoint split (c : ascii) (s : string) : list string :=
  match s with
  | EmptyString => [EmptyString]
  | String a r =>
      if Ascii.eqb a c then EmptyString :: split c r
      else match split c r with
           | x :: l => String a x :: l
           | [] => [String a EmptyString]
           end
  end.

(** [c in s] for a character. *)
Fixpoint has_char (c : ascii) (s : string) : bool :=
  match s with
  | EmptyString => false
  | String a r => Ascii.eqb a c || has_char c r
  end.

(** [needle in hay] for strings. *)
Fixpoint contains (needle hay : string) : bool :=
  String.prefix needle hay ||
  match hay with
  | EmptyString => false
  | String _ r => contains needle r
  end.

(** [s.endswith(suf)] *)
Definition endswith (suf s : string) : bool :=
  String.prefix (String.rev suf) (String.rev s).

(** [str(n)] for a non-negative integer. *)
Definition of_N (n : N) : string := NilEmpty.string_of_uint (N.to_uint n).

End Str.

(** ** [pathlib]: pure POSIX paths

    [install_from_url] turns its [prefix] into a [Path] before it builds any
    file name from it, so the prefix that reaches the files is the
    normalised one: empty and [.] components dropped, repeated slashes
    merged, and exactly two leading slashes kept. *)

Module pathlib.

Record PurePath := mkPath { root : string; parts : list string }.

Fixpoint lstrip_slash (s : string) : nat * string :=
  match s with
  | String a r =>
      if Ascii.eqb a "/" then let '(n, t) := lstrip_slash r in (S n, t)
      else (0, s)
  | EmptyString => (0, s)
  end.

Definition splitroot (s : string) : string * string :=
  let '(n, rel) := lstrip_slash s in
  match n with
  | 0 => (EmptyString, rel)
  | 2 => ("//", rel)
  | _ => ("/", rel)
  end.

Definition is_part (x : string) : bool :=
  negb (String.eqb x EmptyString) && negb (String.eqb x ".").

Definition Path (s : string) : PurePath :=
  let '(r, rel) := splitroot s in
  mkPath r (List.filter is_part (Str.split "/" rel)).

(** [p / s] *)
Definition truediv (p : PurePath) (s : string) : PurePath :=
  let q := Path s in
  if String.eqb (root q) EmptyString
  then mkPath (root p) (parts p ++ parts q)
  else q.

(** [str(p)] *)
Definition str (p : PurePath) : string :=
  match root p, parts p with
  | EmptyString, [] => "."
  | r, ps => r +:+ Str.join "/" ps
  end.

(** The path itself and the directories above it, outermost first
    (what [mkdir(parents=True)] walks). *)
Definition lineage (p : PurePath) : list PurePath :=
  map (fun n => mkPath (root p) (take (S n) (parts p))) (seq 0 (length (parts p))).

End pathlib.

Declare Scope path_scope.
Delimit Scope path_scope with path.
Infix "/" := pathlib.truediv : path_scope.

(** ** Dictionaries

    A Python [dict] keeps its keys in insertion order; assigning to a key
    that is present changes the value where it stands, assigning to a new
    key appends. *)

Abbreviation dict := (list (string * string)).

Fixpoint dict_set (k v : string) (d : dict) : dict :=
  match d with
  | [] => [(k, v)]
  | (k', v') :: r =>
      if String.eqb k' k then (k', v) :: r else (k', v') :: dict_set k v r
  end.

Fixpoint dict_get (k : string) (d : dict) : option string :=
  match d with
  | [] => None
  | (k', v') :: r => if String.eqb k' k then Some v' else dict_get k r
  end.

(** ** Exceptions, events, host and state *)

(** A value interpolated into a message. *)
Inductive pyval :=
| VStr (s : string)
| VList (l : list string).

Inductive exn :=
| NetworkError (what : string)       (* whatever [urlopen] or a read raises *)
| OSError (path : string)            (* a failed file operation on [path] *)
| KeyError (key : string)
| TypeError (what : string)
| AssertionError (text : string) (value : option pyval).

Inductive event :=
| EPrint (line : string)
| ESpawn (argv : list string)
| EWrite (path text : string)
| EShutdown (restart : bool).

(** What [urlopen] hands back: the bytes that can be read, and the error
    that interrupts the reading, if any. *)
Record stream := mkStream { body : string; fault : option exn }.

Record Disk := mkDisk {
  files : gmap string string;        (* regular files, by path *)
  dirs : gset string;                (* directories *)
  xbit : gset string                 (* files marked executable *)
}.

Abbreviation loc := nat.

Record State := mkState {
  disk : Disk;
  sys_path : list string;
  heap : list dict;                  (* dictionaries, by reference *)
  log : list event
}.

Record Host := mkHost {
  web : string -> exn + stream;      (* [urlopen url] *)
  denied : gset string;              (* paths that cannot be opened for writing *)
  environ : gmap string string;      (* [os.environ] *)
  sys_executable : string;
  sys_version_info : N * N;
  installer_effect : string -> list string -> Disk -> Disk;
  installer_exit : string -> list string -> Disk -> Z
}.

Definition set_files (f : gmap string string -> gmap string string) (d : Disk) : Disk :=
  mkDisk (f (files d)) (dirs d) (xbit d).
Definition set_dirs (f : gset string -> gset string) (d : Disk) : Disk :=
  mkDisk (files d) (f (dirs d)) (xbit d).
Definition set_xbit (f : gset string -> gset string) (d : Disk) : Disk :=
  mkDisk (files d) (dirs d) (f (xbit d)).

Definition set_disk (f : Disk -> Disk) (s : State) : State :=
  mkState (f (disk s)) (sys_path s) (heap s) (log s).
Definition set_sys_path (f : list string -> list string) (s : State) : State :=
  mkState (disk s) (f (sys_path s)) (heap s) (log s).
Definition set_heap (f : list dict -> list dict) (s : State) : State :=
  mkState (disk s) (sys_path s) (f (heap s)) (log s).
Definition emit (e : event) (s : State) : State :=
  mkState (disk s) (sys_path s) (heap s) (log s ++ [e]).

(** ** The monad: state that survives an exception *)

Inductive Result (A : Type) :=
| Ok (a : A)
| Raise (e : exn).
Arguments Ok {A} a.
Arguments Raise {A} e.

Definition M (A : Type) : Type := State -> Result A * State.

#[global] Instance M_ret : MRet M := fun A a s => (Ok a, s).
#[global] Instance M_bind : MBind M := fun A B k m s =>
  match m s with
  | (Ok a, s') => k a s'
  | (Raise e, s') => (Raise e, s')
  end.

Definition raise {A} (e : exn) : M A := fun s => (Raise e, s).
Definition get : M State := fun s => (Ok s, s).
Definition modify (f : State -> State) : M unit := fun s => (Ok tt, f s).

Definition print (line : string) : M unit := modify (emit (EPrint line)).

(** ** The primitives the module calls

    Each one is the library call of the same name, cut down to what it
    does to the state and to when it raises. *)

Definition is_file (p : string) (d : Disk) : bool :=
  match files d !! p with Some _ => true | None => false end.

(** [open(path, mode)]: the handle is the path; [a] keeps the content, any
    other mode ([w], [wb]) truncates; the file is created when missing. *)
Definition opened (path mode : string) (fs : gmap string string) : gmap string string :=
  <[path := if String.eqb mode "a" then default EmptyString (fs !! path) else EmptyString]> fs.

Definition open_ (h : Host) (path mode : string) : M string := fun s =>
  if bool_decide (path ∈ denied h) || bool_decide (path ∈ dirs (disk s))
  then (Raise (OSError path), s)
  else (Ok path, set_disk (set_files (opened path mode)) s).

(** [f.write(text)] *)
Definition appended (f text : string) (fs : gmap string string) : gmap string string :=
  <[f := default EmptyString (fs !! f) +:+ text]> fs.

Definition write (f text : string) : M unit := fun s =>
  (Ok tt, emit (EWrite f text) (set_disk (set_files (appended f text)) s)).

(** [urlopen(url)] *)
Definition urlopen (h : Host) (url : string) : M stream := fun s =>
  match web h url with
  | inl e => (Raise e, s)
  | inr r => (Ok r, s)
  end.

(** [shutil.copyfileobj(response, out)]: what can be read is written, then
    the error of the stream, if it has one, is raised. *)
Definition copyfileobj (response : stream) (out : string) : M unit :=
  write out (body response);;
  match fault response with
  | Some e => raise e
  | None => mret tt
  end.

(** [os.unlink(p)] *)
Definition os_unlink (p : string) : M unit := fun s =>
  if is_file p (disk s)
  then (Ok tt,
        set_disk (fun d => mkDisk (delete p (files d)) (dirs d) (xbit d ∖ {[p]})) s)
  else (Raise (OSError p), s).

(** [os.rename(src, dst)]: the file, with its mode, moves over [dst]. *)
Definition os_rename (src dst : string) : M unit := fun s =>
  match files (disk s) !! src with
  | None => (Raise (OSError src), s)
  | Some c =>
      if bool_decide (dst ∈ dirs (disk s)) then (Raise (OSError dst), s)
      else
        (Ok tt,
         set_disk (fun d =>
           mkDisk (<[dst := c]> (delete src (files d))) (dirs d)
                  (if bool_decide (src ∈ xbit d)
                   then {[dst]} ∪ xbit d ∖ {[src]}
                   else xbit d ∖ {[src]} ∖ {[dst]})) s)
  end.

(** [p.mkdir(parents=True, exist_ok=True)]: raises when the path or a
    directory above it is a regular file, or when a directory that is
    missing may not be created. *)
Definition mkdir (h : Host) (p : pathlib.PurePath) : M unit := fun s =>
  let chain := map pathlib.str (pathlib.lineage p) in
  match List.find (fun q => is_file q (disk s)) chain with
  | Some q => (Raise (OSError q), s)
  | None =>
      match List.find (fun q => bool_decide (q ∈ denied h) &&
                                negb (bool_decide (q ∈ dirs (disk s)))) chain with
      | Some q => (Raise (OSError q), s)
      | None => (Ok tt, set_disk (set_dirs (fun ds => ds ∪ list_to_set chain)) s)
      end
  end.

(** [subprocess.call(argv)]: runs the program and returns its exit code,
    which is all the caller gets.  Two programs are run by this module:
    [bash script args...], whose effect on the disk and exit code are the
    host's, and [chmod +x p]. *)
Definition call (h : Host) (argv : list string) : M Z := fun s0 =>
  let s := emit (ESpawn argv) s0 in
  match argv with
  | prog :: script :: args =>
      if String.eqb prog "bash" then
        match files (disk s) !! script with
        | Some text =>
            (Ok (installer_exit h text args (disk s)),
             set_disk (installer_effect h text args) s)
        | None => (Ok 127%Z, s)
        end
      else if String.eqb prog "chmod" && String.eqb script "+x" then
        match args with
        | [p] =>
            if is_file p (disk s) || bool_decide (p ∈ dirs (disk s))
            then (Ok 0%Z, set_disk (set_xbit (fun x => x ∪ {[p]})) s)
            else (Ok 1%Z, s)
        | _ => (Ok 1%Z, s)
        end
      else (Ok 127%Z, s)
  | _ => (Ok 127%Z, s)
  end.

(** [os.environ.get(k, dflt)] and [os.environ[k]] *)
Definition environ_get (h : Host) (k dflt : string) : string :=
  default dflt (environ h !! k).

Definition environ_getitem (h : Host) (k : string) : M string :=
  match environ h !! k with
  | Some v => mret v
  | None => raise (KeyError k)
  end.

(** [get_ipython().kernel.do_shutdown(restart)] *)
Definition do_shutdown (restart : bool) : M unit := modify (emit (EShutdown restart)).

(** Dictionaries live in the heap and are passed by reference. *)
Definition new_dict : M loc := fun s =>
  (Ok (length (heap s)), set_heap (fun hp => (hp ++ [[]])%list) s).

Definition deref (l : loc) : M dict := fun s =>
  match heap s !! l with
  | Some d => (Ok d, s)
  | None => (Raise (TypeError "dangling reference"), s)
  end.

(** [d[k] = v] *)
Definition dict_setitem (l : loc) (k v : string) : M unit :=
  d ← deref l;
  modify (set_heap (fun hp => <[l := dict_set k v d]> hp)).

(** [env or {}]: [None] and the empty dictionary are both falsy, and then
    a new dictionary is made. *)
Definition or_new_dict (env : option loc) : M loc :=
  match env with
  | None => new_dict
  | Some l =>
      d ← deref l;
      match d with
      | [] => new_dict
      | _ :: _ => mret l
      end
  end.

(** [sys.path.insert(0, x)] *)
Definition sys_path_insert0 (x : string) : M unit := modify (set_sys_path (cons x)).

(** [distutils.spawn.find_executable(name)]: the name itself when it is a
    file, else the first directory of [PATH] that holds such a file. *)
Definition path_join (dir name : string) : string :=
  if String.eqb dir EmptyString then name
  else if Str.endswith "/" dir then dir +:+ name
  else dir +:+ "/" +:+ name.

Definition find_executable (h : Host) (name : string) (d : Disk) : option string :=
  if is_file name d then Some name
  else
    List.find (fun f => is_file f d)
      (map (fun p => path_join p name)
           (Str.split ":" (environ_get h "PATH" "/bin:/usr/bin"))).

(** ** The module *)

Definition PREFIX : string := "/usr/local".

(** The three lines appended to [conda-meta/pinned]. *)
Definition cuda_version (h : Host) : string :=
  Str.join "." (take 2 (Str.split "." (environ_get h "CUDA_VERSION" "*.*.*"))).

Definition pin_python (pymaj pymin : N) : string :=
  "python " +:+ Str.of_N pymaj +:+ "." +:+ Str.of_N pymin +:+ ".*" +:+ Str.nl.

Definition pin_python_abi (pymaj pymin : N) : string :=
  "python_abi " +:+ Str.of_N pymaj +:+ "." +:+ Str.of_N pymin +:+ ".* *cp"
    +:+ Str.of_N pymaj +:+ Str.of_N pymin +:+ "*" +:+ Str.nl.

Definition pin_cudatoolkit (cuda : string) : string :=
  "cudatoolkit " +:+ cuda +:+ ".*" +:+ Str.nl.

(** [f"{prefix}/lib/python{pymaj}.{pymin}/site-packages"] *)
Definition site_packages (prefix : string) (pymaj pymin : N) : string :=
  prefix +:+ "/lib/python" +:+ Str.of_N pymaj +:+ "." +:+ Str.of_N pymin
    +:+ "/site-packages".

(** The text appended to [ipython_config.py]. *)
Definition exec_lines (prefix : string) (pymaj pymin : N) : string :=
  Str.nl +:+ "c.InteractiveShellApp.exec_lines = [" +:+ Str.nl
  +:+ "                    " +:+ Str.dquote +:+ "import sys" +:+ Str.dquote +:+ "," +:+ Str.nl
  +:+ "                    " +:+ Str.dquote +:+ "sp = f'" +:+ site_packages prefix pymaj pymin
      +:+ "'" +:+ Str.dquote +:+ "," +:+ Str.nl
  +:+ "                    " +:+ Str.dquote +:+ "if sp not in sys.path:" +:+ Str.dquote +:+ "," +:+ Str.nl
  +:+ "                    " +:+ Str.dquote +:+ "    sys.path.insert(0, sp)" +:+ Str.dquote +:+ "," +:+ Str.nl
  +:+ "                ]" +:+ Str.nl
  +:+ "            ".

(** [f'"{prefix}/lib:$LD_LIBRARY_PATH"'] *)
Definition ld_library_path (prefix : string) : string :=
  Str.dquote +:+ prefix +:+ "/lib:$LD_LIBRARY_PATH" +:+ Str.dquote.

(** [" ".join(f"{k}={v}" for k, v in env.items())] *)
Definition assignment (kv : string * string) : string := kv.1 +:+ "=" +:+ kv.2.
Definition envstr (d : dict) : string := Str.join " " (map assignment d).

(** The second line of the shim. *)
Definition exec_line (d : dict) (prefix : string) : string :=
  "exec env " +:+ envstr d +:+ " " +:+ prefix +:+ "/bin/python -x $@" +:+ Str.nl.

Definition shebang : string := "#!/bin/bash" +:+ Str.nl.

Definition installer_fn : string := "__installer__.sh".

Definition install_from_url (h : Host) (installer_url prefix : string)
    (env : option loc) : M unit :=
  print ("⏬ Downloading " +:+ installer_url +:+ "...");;
  response ← urlopen h installer_url;
  out ← open_ h installer_fn "wb";
  copyfileobj response out;;

  print "📦 Installing...";;
  _ ← call h ["bash"; installer_fn; "-bfp"; prefix];
  os_unlink installer_fn;;

  print "📌 Adjusting configuration...";;
  let cuda_version := cuda_version h in
  let prefix := pathlib.Path prefix in
  let condameta := (prefix / "conda-meta")%path in
  mkdir h condameta;;
  let '(pymaj, pymin) := sys_version_info h in

  f ← open_ h (pathlib.str (condameta / "pinned")%path) "a";
  write f (pin_python pymaj pymin);;
  write f (pin_python_abi pymaj pymin);;
  write f (pin_cudatoolkit cuda_version);;

  f ← open_ h (pathlib.str (prefix / ".condarc")%path) "a";
  write f ("always_yes: true" +:+ Str.nl);;

  f ← open_ h "/etc/ipython/ipython_config.py" "a";
  write f (exec_lines (pathlib.str prefix) pymaj pymin);;

  let sitepackages := site_packages (pathlib.str prefix) pymaj pymin in
  s ← get;
  (if bool_decide (sitepackages ∈ sys_path s) then mret tt
   else sys_path_insert0 sitepackages);;

  print "🩹 Patching environment...";;
  env ← or_new_dict env;
  dict_setitem env "LD_LIBRARY_PATH" (ld_library_path (pathlib.str prefix));;

  os_rename (sys_executable h) (sys_executable h +:+ ".real");;
  f ← open_ h (sys_executable h) "w";
  write f shebang;;
  items ← deref env;
  write f (exec_line items (pathlib.str prefix));;
  _ ← call h ["chmod"; "+x"; sys_executable h];

  print "🔁 Restarting kernel...";;
  do_shutdown true.

Definition install_mambaforge (h : Host) (prefix : string) (env : option loc) : M unit :=
  install_from_url h
    "https://github.com/jaimergp/miniforge/releases/latest/download/Mambaforge-colab-Linux-x86_64.sh"
    prefix env.

Definition install := install_mambaforge.

Definition install_miniforge (h : Host) (prefix : string) (env : option loc) : M unit :=
  install_from_url h
    "https://github.com/jaimergp/miniforge/releases/latest/download/Miniforge-colab-Linux-x86_64.sh"
    prefix env.

Definition install_miniconda (h : Host) (prefix : string) (env : option loc) : M unit :=
  install_from_url h
    "https://repo.anaconda.com/miniconda/Miniconda3-4.5.4-Linux-x86_64.sh"
    prefix env.

Definition install_anaconda (h : Host) (prefix : string) (env : option loc) : M unit :=
  install_from_url h
    "https://repo.anaconda.com/archive/Anaconda3-5.2.0-Linux-x86_64.sh"
    prefix env.

(** [assert cond, message] *)
Definition assert (cond : bool) (text : string) (value : option pyval) : M unit :=
  if cond then mret tt else raise (AssertionError text value).

Definition check (h : Host) (prefix : string) : M unit :=
  s ← get;
  assert (bool_decide (is_Some (find_executable h "conda" (disk s))))
    "💥💔💥 Conda not found!" None;;
  let '(pymaj, pymin) := sys_version_info h in
  let sitepackages := site_packages prefix pymaj pymin in
  assert (bool_decide (sitepackages ∈ sys_path s))
    "💥💔💥 PYTHONPATH was not patched! Value: " (Some (VList (sys_path s)));;
  ld ← environ_getitem h "LD_LIBRARY_PATH";
  assert (Str.contains (prefix +:+ "/lib") ld)
    "💥💔💥 LD_LIBRARY_PATH was not patched! Value: " (Some (VStr ld));;
  print "✨🍰✨ Everything looks OK!".

(** ** A concrete host, for examples *)

Module Demo.

(** The stub installer: writes a marker file under its second argument;
    the script [exit 1] fails after doing so, any other succeeds. *)
Definition stub_effect (text : string) (args : list string) (d : Disk) : Disk :=
  match args with
  | [_; target] => set_files (insert (target +:+ "/marker") "installed") d
  | _ => d
  end.

Definition stub_exit (text : string) (args : list string) (d : Disk) : Z :=
  if String.eqb text "exit 1" then 1%Z else 0%Z.

Definition url : string := "https://example.org/stub.sh".

Definition host : Host := {|
  web := fun u => if String.eqb u url then inr (mkStream "exit 0" None)
                  else inl (NetworkError "HTTP Error 404: Not Found");
  denied := ∅;
  environ := {[ "CUDA_VERSION" := "11.2.152" ]};
  sys_executable := "/usr/bin/python3";
  sys_version_info := (3, 7)%N;
  installer_effect := stub_effect;
  installer_exit := stub_exit
|}.

(** A fresh host: the interpreter is the only file; the module search
    path and the dictionaries of the caller are given. *)
Definition start (path : list string) (hp : list dict) : State := {|
  disk := mkDisk {[ "/usr/bin/python3" := "ELF" ]} {[ "/usr"; "/usr/bin" ]}
                 {[ "/usr/bin/python3" ]};
  sys_path := path;
  heap := hp;
  log := []
|}.

Definition state0 : State :=
  start ["/content"; "/usr/lib/python3.7"] [ [("FOO", "bar")] ].

(** The caller's mapping already binds [LD_LIBRARY_PATH]. *)
Definition conflicting : State :=
  start ["/content"] [ [("LD_LIBRARY_PATH", "/opt/lib"); ("FOO", "bar")] ].

(** The site-packages directory is already on the path, but not first. *)
Definition already : State :=
  start ["/content"; "/usr/local/lib/python3.7/site-packages"] [].

(** The caller passes a dictionary that is empty. *)
Definition empty_env : State := start ["/content"] [ [] ].

(** A kernel in which [conda] is installed and the site-packages
    directory is on the path, but [LD_LIBRARY_PATH] is not set. *)
Definition kernel : Host := {|
  web := fun _ => inl (NetworkError "offline");
  denied := ∅;
  environ := {[ "PATH" := "/usr/local/bin:/usr/bin" ]};
  sys_executable := "/usr/bin/python3";
  sys_version_info := (3, 7)%N;
  installer_effect := stub_effect;
  installer_exit := stub_exit
|}.

Definition restarted : State := {|
  disk := mkDisk {[ "/usr/local/bin/conda" := "#!/usr/local/bin/python" ]}
                 {[ "/usr"; "/usr/local"; "/usr/local/bin" ]} {[ "/usr/local/bin/conda" ]};
  sys_path := ["/usr/local/lib/python3.7/site-packages"; "/content"];
  heap := [];
  log := []
|}.

End Demo.

(** * The successful run, as functions on states

    What follows names the states a run goes through and the conditions
    the theorems are stated under; the proofs come after. *)

(** The disk once [p] is unlinked, and once [src] is renamed to [dst]. *)
Definition unlinked (p : string) (d : Disk) : Disk :=
  mkDisk (delete p (files d)) (dirs d) (xbit d ∖ {[p]}).

Definition renamed (src dst c : string) (d : Disk) : Disk :=
  mkDisk (<[dst := c]> (delete src (files d))) (dirs d)
         (if bool_decide (src ∈ xbit d)
          then {[dst]} ∪ xbit d ∖ {[src]}
          else xbit d ∖ {[src]} ∖ {[dst]}).

(** The disk once [p] and the directories above it are made, and once
    [chmod +x p] has run. *)
Definition made (p : pathlib.PurePath) (d : Disk) : Disk :=
  set_dirs (fun ds => ds ∪ list_to_set (map pathlib.str (pathlib.lineage p))) d.

Definition chmodded (p : string) (d : Disk) : Disk :=
  set_xbit (fun x => if is_file p d || bool_decide (p ∈ dirs d) then x ∪ {[p]} else x) d.

(** The dictionary the caller passed, as the program sees it, and the heap
    once [env = env or {}; env[k] = v] has run. *)
Definition caller_dict (env : option loc) (hp : list dict) : dict :=
  match env with
  | Some l => default [] (hp !! l)
  | None => []
  end.

Definition rebound (env : option loc) (k v : string) (hp : list dict) : list dict :=
  match env with
  | Some l =>
      match hp !! l with
      | Some ((_ :: _) as d) => <[l := dict_set k v d]> hp
      | _ => (hp ++ [[(k, v)]])%list
      end
  | None => (hp ++ [[(k, v)]])%list
  end.

(** The files a run writes to, and the prefix as [pathlib] renders it. *)
Definition pinned (prefix : string) : string :=
  pathlib.str (pathlib.Path prefix / "conda-meta" / "pinned")%path.

Definition condarc (prefix : string) : string :=
  pathlib.str (pathlib.Path prefix / ".condarc")%path.

Definition ipython_config : string := "/etc/ipython/ipython_config.py".

Definition real (h : Host) : string := sys_executable h +:+ ".real".

Definition normal (prefix : string) : string := pathlib.str (pathlib.Path prefix).

(** A run that does not raise goes through four phases, one per progress
    message: the download, the installation, the configuration and the
    patch of the environment.  [written] is one [f.write(text)]. *)
Definition written (f text : string) (s : State) : State :=
  emit (EWrite f text) (set_disk (set_files (appended f text)) s).

Definition downloaded (url text : string) (s : State) : State :=
  written installer_fn text
    (set_disk (set_files (opened installer_fn "wb"))
       (emit (EPrint ("⏬ Downloading " +:+ url +:+ "...")) s)).

Definition installed (h : Host) (text prefix : string) (s : State) : State :=
  set_disk (unlinked installer_fn)
    (set_disk (installer_effect h text ["-bfp"; prefix])
       (emit (ESpawn ["bash"; installer_fn; "-bfp"; prefix])
          (emit (EPrint "📦 Installing...") s))).

Definition configured (h : Host) (prefix : string) (s : State) : State :=
  let sp := site_packages (normal prefix) (sys_version_info h).1 (sys_version_info h).2 in
  set_sys_path (fun l => if bool_decide (sp ∈ sys_path s) then l else sp :: l)
    (written ipython_config
       (exec_lines (normal prefix) (sys_version_info h).1 (sys_version_info h).2)
    (set_disk (set_files (opened ipython_config "a"))
    (written (condarc prefix) ("always_yes: true" +:+ Str.nl)
    (set_disk (set_files (opened (condarc prefix) "a"))
    (written (pinned prefix) (pin_cudatoolkit (cuda_version h))
    (written (pinned prefix)
       (pin_python_abi (sys_version_info h).1 (sys_version_info h).2)
    (written (pinned prefix)
       (pin_python (sys_version_info h).1 (sys_version_info h).2)
    (set_disk (set_files (opened (pinned prefix) "a"))
    (set_disk (made (pathlib.Path prefix / "conda-meta")%path)
    (emit (EPrint "📌 Adjusting configuration...") s)))))))))).

(** The dictionary whose items go into the shim. *)
Definition shim_env (prefix : string) (env : option loc) (s : State) : dict :=
  dict_set "LD_LIBRARY_PATH" (ld_library_path (normal prefix)) (caller_dict env (heap s)).

Definition patched (h : Host) (prefix : string) (env : option loc) (c : string)
    (s : State) : State :=
  emit (EShutdown true)
    (emit (EPrint "🔁 Restarting kernel...")
    (set_disk (chmodded (sys_executable h))
    (emit (ESpawn ["chmod"; "+x"; sys_executable h])
    (written (sys_executable h) (exec_line (shim_env prefix env s) (normal prefix))
    (written (sys_executable h) shebang
    (set_disk (set_files (opened (sys_executable h) "w"))
    (set_disk (renamed (sys_executable h) (real h) c)
    (set_heap (rebound env "LD_LIBRARY_PATH" (ld_library_path (normal prefix)))
    (emit (EPrint "🩹 Patching environment...") s))))))))).

(** The last character tells the files of a run apart. *)
Fixpoint last_char (s : string) : option ascii :=
  match s with
  | EmptyString => None
  | String a EmptyString => Some a
  | String _ r => last_char r
  end.

(** Frame conditions: what a run does to a file depends on what the
    installer does to it, and on the file not being one of those the run
    itself writes. *)
Definition installer_keeps (h : Host) (p : string) : Prop :=
  forall text args d, files (installer_effect h text args d) !! p = files d !! p.

Definition config_paths (prefix : string) : list string :=
  [installer_fn; pinned prefix; condarc prefix; ipython_config].

Definition LD_LIBRARY_PATH : string := "LD_LIBRARY_PATH".

(** The three lines one run appends. *)
Definition pins (h : Host) : string :=
  pin_python (sys_version_info h).1 (sys_version_info h).2
  +:+ pin_python_abi (sys_version_info h).1 (sys_version_info h).2
  +:+ pin_cudatoolkit (cuda_version h).

(** [n] runs in a row, each one starting where the one before stopped. *)
Fixpoint runs (n : nat) (h : Host) (installer_url prefix : string)
    (env : option loc) : M unit :=
  match n with
  | 0 => mret tt
  | S n => install_from_url h installer_url prefix env;; runs n h installer_url prefix env
  end.

(** [n] copies of a text, one after the other. *)
Fixpoint copies (n : nat) (text : string) : string :=
  match n with
  | 0 => EmptyString
  | S n => text +:+ copies n text
  end.

(** The events of a run that does not raise, in order. *)
Definition trace (h : Host) (url prefix : string) (env : option loc) (s : State)
    (text : string) : list event :=
  [ EPrint ("⏬ Downloading " +:+ url +:+ "...");
    EWrite installer_fn text;
    EPrint "📦 Installing...";
    ESpawn ["bash"; installer_fn; "-bfp"; prefix];
    EPrint "📌 Adjusting configuration...";
    EWrite (pinned prefix) (pin_python (sys_version_info h).1 (sys_version_info h).2);
    EWrite (pinned prefix) (pin_python_abi (sys_version_info h).1 (sys_version_info h).2);
    EWrite (pinned prefix) (pin_cudatoolkit (cuda_version h));
    EWrite (condarc prefix) ("always_yes: true" +:+ Str.nl);
    EWrite ipython_config
      (exec_lines (normal prefix) (sys_version_info h).1 (sys_version_info h).2);
    EPrint "🩹 Patching environment...";
    EWrite (sys_executable h) shebang;
    EWrite (sys_executable h) (exec_line (shim_env prefix env s) (normal prefix));
    ESpawn ["chmod"; "+x"; sys_executable h];
    EPrint "🔁 Restarting kernel...";
    EShutdown true ].

(** The same host, with an installer that does the same to the disk and
    exits with other codes. *)
Definition with_installer_exit (f : string -> list string -> Disk -> Z) (h : Host) : Host :=
  mkHost (web h) (denied h) (environ h) (sys_executable h) (sys_version_info h)
         (installer_effect h) f.

(** The messages of the three assertions of [check]. *)
Definition conda_not_found : string := "💥💔💥 Conda not found!".

Definition pythonpath_not_patched : string := "💥💔💥 PYTHONPATH was not patched! Value: ".

Definition ld_library_path_not_patched : string :=
  "💥💔💥 LD_LIBRARY_PATH was not patched! Value: ".

(** * More of the run: definitions

    The states and hosts of further examples, the entry points of the
    module, and what it means for two computations to go the same way. *)


(** The line a run appends to [.condarc]. *)
Definition always_yes : string := "always_yes: true" +:+ Str.nl.

Module Scenario.


(** A kernel after the restart through the shim: [conda] is on [PATH]
    and [LD_LIBRARY_PATH] starts with the library directory. *)
Definition patched_kernel : Host := {|
  web := fun _ => inl (NetworkError "offline");
  denied := ∅;
  environ := {[ "PATH" := "/usr/local/bin:/usr/bin";
                "LD_LIBRARY_PATH" := "/usr/local/lib:/usr/lib64-nvidia" ]};
  sys_executable := "/usr/bin/python3";
  sys_version_info := (3, 7)%N;
  installer_effect := Demo.stub_effect;
  installer_exit := Demo.stub_exit
|}.

(** A host on which the interpreter cannot be replaced. *)
Definition locked : Host := {|
  web := web Demo.host;
  denied := {[ "/usr/bin/python3" ]};
  environ := environ Demo.host;
  sys_executable := "/usr/bin/python3";
  sys_version_info := (3, 7)%N;
  installer_effect := Demo.stub_effect;
  installer_exit := Demo.stub_exit
|}.

(** An installer that puts [conda] in place, on a host whose [PATH]
    leads to it. *)
Definition conda_effect (text : string) (args : list string) (d : Disk) : Disk :=
  set_files (insert "/usr/local/bin/conda" "#!/usr/local/bin/python") d.

Definition colab : Host := {|
  web := web Demo.host;
  denied := ∅;
  environ := {[ "PATH" := "/usr/local/bin:/usr/bin"; "CUDA_VERSION" := "11.2.152" ]};
  sys_executable := "/usr/bin/python3";
  sys_version_info := (3, 7)%N;
  installer_effect := conda_effect;
  installer_exit := Demo.stub_exit
|}.

(** A host that serves the stub installer under every address. *)
Definition mirror : Host := {|
  web := fun _ => inr (mkStream "exit 0" None);
  denied := ∅;
  environ := environ Demo.host;
  sys_executable := "/usr/bin/python3";
  sys_version_info := (3, 7)%N;
  installer_effect := Demo.stub_effect;
  installer_exit := Demo.stub_exit
|}.

Definition mirror_url : string := "https://mirror.example.org/stub.sh".

End Scenario.

(** The entry points that install a distribution chosen by the module. *)
Definition presets : list (Host -> string -> option loc -> M unit) :=
  [install; install_mambaforge; install_miniforge; install_miniconda; install_anaconda].

(** Two states that differ at most in what has been logged. *)
Definition same_but_log (s1 s2 : State) : Prop :=
  disk s1 = disk s2 /\ sys_path s1 = sys_path s2 /\ heap s1 = heap s2.

(** Two computations go in lockstep when, started in states that differ
    at most in the log, they add the same events, end in states that
    differ at most in the log, and both return (related values) or both
    raise (the same exception). *)
Definition lockstep {A} (R : A -> A -> Prop) (m1 m2 : M A) : Prop :=
  forall s1 s2, same_but_log s1 s2 ->
  exists l,
    same_but_log (m1 s1).2 (m2 s2).2 /\
    log (m1 s1).2 = (log s1 ++ l)%list /\
    log (m2 s2).2 = (log s2 ++ l)%list /\
    match (m1 s1).1, (m2 s2).1 with
    | Ok a, Ok b => R a b
    | Raise e1, Raise e2 => e1 = e2
    | _, _ => False
    end.

(** The first message of a run. *)
Definition downloading (url : string) : string := "⏬ Downloading " +:+ url +:+ "...".

(** * Reasoning about runs *)

(** ** What each update leaves of each field *)

Section Fields.
Variables (s : State) (d : Disk) (e : event).
Variables (fd : Disk -> Disk) (fp : list string -> list string).
Variables (fh : list dict -> list dict).
Variables (ff : gmap string string -> gmap string string) (fs : gset string -> gset string).

Lemma disk_emit : disk (emit e s) = disk s. Proof. reflexivity. Qed.
Lemma disk_set_disk : disk (set_disk fd s) = fd (disk s). Proof. reflexivity. Qed.
Lemma disk_set_sys_path : disk (set_sys_path fp s) = disk s. Proof. reflexivity. Qed.
Lemma disk_set_heap : disk (set_heap fh s) = disk s. Proof. reflexivity. Qed.

Lemma sys_path_emit : sys_path (emit e s) = sys_path s. Proof. reflexivity. Qed.
Lemma sys_path_set_disk : sys_path (set_disk fd s) = sys_path s. Proof. reflexivity. Qed.
Lemma sys_path_set_sys_path : sys_path (set_sys_path fp s) = fp (sys_path s).
Proof. reflexivity. Qed.
Lemma sys_path_set_heap : sys_path (set_heap fh s) = sys_path s. Proof. reflexivity. Qed.

Lemma heap_emit : heap (emit e s) = heap s. Proof. reflexivity. Qed.
Lemma heap_set_disk : heap (set_disk fd s) = heap s. Proof. reflexivity. Qed.
Lemma heap_set_sys_path : heap (set_sys_path fp s) = heap s. Proof. reflexivity. Qed.
Lemma heap_set_heap : heap (set_heap fh s) = fh (heap s). Proof. reflexivity. Qed.

Lemma log_emit : log (emit e s) = (log s ++ [e])%list. Proof. reflexivity. Qed.
Lemma log_set_disk : log (set_disk fd s) = log s. Proof. reflexivity. Qed.
Lemma log_set_sys_path : log (set_sys_path fp s) = log s. Proof. reflexivity. Qed.
Lemma log_set_heap : log (set_heap fh s) = log s. Proof. reflexivity. Qed.

Lemma files_set_files : files (set_files ff d) = ff (files d). Proof. reflexivity. Qed.
Lemma files_set_dirs : files (set_dirs fs d) = files d. Proof. reflexivity. Qed.
Lemma files_set_xbit : files (set_xbit fs d) = files d. Proof. reflexivity. Qed.

End Fields.

Create Rewrite HintDb fields.

#[global] Hint Rewrite disk_emit disk_set_disk disk_set_sys_path disk_set_heap
  sys_path_emit sys_path_set_disk sys_path_set_sys_path sys_path_set_heap
  heap_emit heap_set_disk heap_set_sys_path heap_set_heap
  log_emit log_set_disk log_set_sys_path log_set_heap
  files_set_files files_set_dirs files_set_xbit : fields.

(** ** Successful steps, one at a time *)

Section Inversion.
Context {A B : Type}.

Lemma bind_Ok (m : M A) (k : A -> M B) s b s' :
  (m ≫= k) s = (Ok b, s') -> exists a s1, m s = (Ok a, s1) /\ k a s1 = (Ok b, s').
Proof.
  unfold mbind, M_bind. destruct (m s) as [[a|e] s1]; [eauto | discriminate].
Qed.

Lemma ret_Ok (a b : A) s s' : (mret a : M A) s = (Ok b, s') -> b = a /\ s' = s.
Proof. unfold mret, M_ret. intros [= <- <-]. done. Qed.

End Inversion.

Lemma modify_Ok f a s s' : modify f s = (Ok a, s') -> s' = f s.
Proof. unfold modify. by intros [= <-]. Qed.

Lemma get_Ok a s s' : get s = (Ok a, s') -> a = s /\ s' = s.
Proof. unfold get. by intros [= <- <-]. Qed.

Lemma print_Ok l a s s' : print l s = (Ok a, s') -> s' = emit (EPrint l) s.
Proof. apply modify_Ok. Qed.

Lemma do_shutdown_Ok b a s s' :
  do_shutdown b s = (Ok a, s') -> s' = emit (EShutdown b) s.
Proof. apply modify_Ok. Qed.

Lemma urlopen_Ok h url r s s' :
  urlopen h url s = (Ok r, s') -> web h url = inr r /\ s' = s.
Proof. unfold urlopen. destruct (web h url); [discriminate|]. by intros [= <- <-]. Qed.

Lemma open_Ok h p mode f s s' :
  open_ h p mode s = (Ok f, s') ->
  f = p /\ s' = set_disk (set_files (opened p mode)) s.
Proof.
  unfold open_. destruct (_ || _); [discriminate|]. by intros [= <- <-].
Qed.

Lemma write_Ok f text a s s' :
  write f text s = (Ok a, s') ->
  s' = emit (EWrite f text) (set_disk (set_files (appended f text)) s).
Proof. unfold write. by intros [= <-]. Qed.

Lemma copyfileobj_Ok r out a s s' :
  copyfileobj r out s = (Ok a, s') ->
  fault r = None /\
  s' = emit (EWrite out (body r)) (set_disk (set_files (appended out (body r))) s).
Proof.
  unfold copyfileobj. intros (u & s1 & ->%write_Ok & H)%bind_Ok.
  destruct (fault r); [discriminate|]. by apply ret_Ok in H as [_ ->].
Qed.

Lemma os_unlink_Ok p a s s' :
  os_unlink p s = (Ok a, s') -> s' = set_disk (unlinked p) s.
Proof. unfold os_unlink. destruct (is_file p (disk s)); [|discriminate]. by intros [= <-]. Qed.

Lemma os_rename_Ok src dst a s s' :
  os_rename src dst s = (Ok a, s') ->
  exists c, files (disk s) !! src = Some c /\ s' = set_disk (renamed src dst c) s.
Proof.
  unfold os_rename. destruct (files (disk s) !! src) as [c|]; [|discriminate].
  case_bool_decide; [discriminate|]. intros [= <-]. eauto.
Qed.

Lemma mkdir_Ok h p a s s' :
  mkdir h p s = (Ok a, s') -> s' = set_disk (made p) s.
Proof.
  unfold mkdir. repeat (destruct (List.find _ _); [discriminate|]). by intros [= <-].
Qed.

Lemma call_bash_Ok h script args text c s s' :
  files (disk s) !! script = Some text ->
  call h ("bash" :: script :: args) s = (Ok c, s') ->
  s' = set_disk (installer_effect h text args) (emit (ESpawn ("bash" :: script :: args)) s).
Proof. intros H. unfold call. cbn. rewrite H. by intros [= _ <-]. Qed.

Lemma call_chmod_Ok h p c s s' :
  call h ["chmod"; "+x"; p] s = (Ok c, s') ->
  s' = set_disk (chmodded p) (emit (ESpawn ["chmod"; "+x"; p]) s).
Proof.
  unfold call, chmodded. cbn.
  destruct (is_file p (disk s) || bool_decide (p ∈ dirs (disk s))) eqn:E;
    intros [= _ <-]; unfold set_disk, set_xbit; cbn; rewrite E; [reflexivity|].
  destruct s as [[] ? ? ?]; reflexivity.
Qed.

Lemma deref_Ok l d s s' : deref l s = (Ok d, s') -> heap s !! l = Some d /\ s' = s.
Proof. unfold deref. destruct (heap s !! l); [|discriminate]. by intros [= <- <-]. Qed.

Lemma guard_insert_Ok (b : bool) x a s s' :
  (if b then mret tt else sys_path_insert0 x) s = (Ok a, s') ->
  s' = set_sys_path (fun l => if b then l else x :: l) s.
Proof.
  destruct b.
  - intros [_ ->]%ret_Ok. by destruct s.
  - by intros ->%modify_Ok.
Qed.

Lemma or_new_dict_setitem_Ok env k v (l : loc) a s s1 s' :
  or_new_dict env s = (Ok l, s1) ->
  dict_setitem l k v s1 = (Ok a, s') ->
  s' = set_heap (rebound env k v) s /\
  heap s' !! l = Some (dict_set k v (caller_dict env (heap s))).
Proof.
  assert (Hnew : forall s0 a0 s2,
    dict_setitem (length (heap s0)) k v (set_heap (fun hp => (hp ++ [[]])%list) s0)
      = (Ok a0, s2) ->
    s2 = set_heap (fun hp => (hp ++ [[(k, v)]])%list) s0 /\
    heap s2 !! length (heap s0) = Some [(k, v)]).
  { intros s0 a0 s2 (d' & s3 & [Hd' ->]%deref_Ok & ->%modify_Ok)%bind_Ok. cbn in *.
    rewrite lookup_app_r, Nat.sub_diag in Hd' by done. injection Hd' as <-.
    assert (E : forall hp : list dict,
      <[length hp := dict_set k v []]> (hp ++ [[]])%list = (hp ++ [[(k, v)]])%list).
    { intros hp. induction hp; simpl; [done | by f_equal]. }
    unfold set_heap. cbn. rewrite E. split; [done|].
    by rewrite lookup_app_r, Nat.sub_diag. }
  unfold or_new_dict, new_dict. destruct env as [l0|].
  - intros (d & s0 & [Hd ->]%deref_Ok & Hk)%bind_Ok. destruct d as [|kv d].
    + injection Hk as <- <-. intros [-> Hl]%Hnew.
      unfold set_heap, rebound, caller_dict in *. by rewrite Hd.
    + apply ret_Ok in Hk as [-> ->].
      intros (d' & s2 & [Hd' ->]%deref_Ok & ->%modify_Ok)%bind_Ok.
      rewrite Hd in Hd'. injection Hd' as <-.
      unfold set_heap, rebound, caller_dict. cbn. rewrite Hd. split; [done|]. cbn.
      apply list_lookup_insert_eq. by eapply lookup_lt_Some.
  - intros [= <- <-]. intros [-> Hl]%Hnew. done.
Qed.

(** ** The successful run, phase by phase *)

Lemma files_unlinked p d : files (unlinked p d) = delete p (files d).
Proof. reflexivity. Qed.
Lemma files_renamed src dst c d :
  files (renamed src dst c d) = <[dst := c]> (delete src (files d)).
Proof. reflexivity. Qed.
Lemma files_made p d : files (made p d) = files d.
Proof. reflexivity. Qed.
Lemma files_chmodded p d : files (chmodded p d) = files d.
Proof. reflexivity. Qed.

Lemma disk_written f text s :
  disk (written f text s) = set_files (appended f text) (disk s).
Proof. reflexivity. Qed.
Lemma sys_path_written f text s : sys_path (written f text s) = sys_path s.
Proof. reflexivity. Qed.
Lemma heap_written f text s : heap (written f text s) = heap s.
Proof. reflexivity. Qed.
Lemma log_written f text s : log (written f text s) = (log s ++ [EWrite f text])%list.
Proof. reflexivity. Qed.

#[global] Hint Rewrite files_unlinked files_renamed files_made files_chmodded
  disk_written sys_path_written heap_written log_written : fields.

Lemma install_from_url_Ok h url prefix env s s' :
  install_from_url h url prefix env s = (Ok tt, s') ->
  exists r c,
    web h url = inr r /\ fault r = None /\
    let sB := configured h prefix (installed h (body r) prefix (downloaded url (body r) s)) in
    files (disk sB) !! sys_executable h = Some c /\
    s' = patched h prefix env c sB.
Proof.
  intros H. unfold install_from_url in H.
  destruct (sys_version_info h) as [pymaj pymin] eqn:Hv.
  repeat match type of H with
  | (_ ≫= _) _ = (Ok _, _) =>
      let a := fresh "a" in let s1 := fresh "s" in let H1 := fresh "H" in
      apply bind_Ok in H as (a & s1 & H1 & H)
  end.
  apply print_Ok in H0. apply urlopen_Ok in H1 as [Hweb ->].
  apply open_Ok in H2 as [-> E2]. apply copyfileobj_Ok in H3 as [Hfault E3].
  fold (written installer_fn (body a0) s2) in E3.
  assert (s3 = downloaded url (body a0) s) as -> by (by subst).
  clear H0 E2 E3 s0 s2.
  apply print_Ok in H4.
  apply (call_bash_Ok _ _ _ (body a0)) in H5;
    [| subst s4; unfold downloaded; autorewrite with fields;
       unfold appended, opened; rewrite !lookup_insert_eq; reflexivity].
  apply os_unlink_Ok in H6.
  assert (s6 = installed h (body a0) prefix (downloaded url (body a0) s)) as ->
    by (by subst).
  clear H4 H5 H6 s4 s5.
  set (sA := installed h (body a0) prefix (downloaded url (body a0) s)) in *.
  apply print_Ok in H7. apply mkdir_Ok in H8.
  apply open_Ok in H9 as [-> E9]. apply write_Ok in H10.
  apply write_Ok in H11. apply write_Ok in H12.
  apply open_Ok in H13 as [-> E13]. apply write_Ok in H14.
  apply open_Ok in H15 as [-> E15]. apply write_Ok in H16.
  apply get_Ok in H17 as [-> ->].
  apply guard_insert_Ok in H18.
  assert (Hsp : sys_path s16 = sys_path sA)
    by (subst; autorewrite with fields; reflexivity).
  rewrite Hsp in H18.
  assert (s18 = configured h prefix sA) as ->.
  { unfold configured, normal, pinned, condarc, ipython_config, written.
    rewrite Hv. cbn [fst snd]. by subst. }
  clear H7 H8 E9 H10 H11 H12 E13 H14 E15 H16 H18 Hsp s7 s8 s9 s10 s11 s12 s13 s14 s15 s16.
  set (sB := configured h prefix sA) in *.
  apply print_Ok in H19.
  destruct (or_new_dict_setitem_Ok _ _ _ _ _ _ _ _ H20 H21) as [E21 Hl].
  apply os_rename_Ok in H22 as (c & Hc & E22).
  apply open_Ok in H23 as [-> E23]. apply write_Ok in H24.
  apply deref_Ok in H25 as [Hitems ->]. apply write_Ok in H26.
  apply call_chmod_Ok in H27. apply print_Ok in H28. apply do_shutdown_Ok in H.
  assert (Hheap : heap s24 = heap s21) by (subst s24 s23 s22; reflexivity).
  rewrite Hheap, Hl in Hitems. injection Hitems as <-.
  assert (Hd21 : disk s21 = disk sB) by (subst s21 s19; reflexivity).
  rewrite Hd21 in Hc.
  assert (Hh19 : heap s19 = heap sB) by (subst s19; reflexivity).
  rewrite Hh19 in *.
  exists a0, c. split; [exact Hweb|]. split; [exact Hfault|]. split; [exact Hc|].
  unfold patched, shim_env, normal, real, written. by subst.
Qed.

(** ** Facts about strings, paths and dictionaries *)

Lemma str_app_cons (x : ascii) (a b : string) : String x a +:+ b = String x (a +:+ b).
Proof. reflexivity. Qed.

Lemma str_app_assoc (a b c : string) : (a +:+ b) +:+ c = a +:+ b +:+ c.
Proof. induction a as [|x a IH]; [reflexivity|]. rewrite !str_app_cons. by rewrite IH. Qed.

Lemma str_app_nil_r (a : string) : a +:+ EmptyString = a.
Proof. induction a as [|x a IH]; [reflexivity|]. rewrite str_app_cons. by rewrite IH. Qed.

Lemma prefix_app (x b : string) : String.prefix x (x +:+ b) = true.
Proof.
  induction x as [|c x IH]; [by destruct b|].
  rewrite str_app_cons. cbn. destruct (ascii_dec c c); [exact IH | congruence].
Qed.

Lemma contains_prefix (x y : string) :
  String.prefix x y = true -> Str.contains x y = true.
Proof. intros H. destruct y; cbn [Str.contains]; by rewrite H. Qed.

Lemma contains_here (x b : string) : Str.contains x (x +:+ b) = true.
Proof. apply contains_prefix, prefix_app. Qed.

Lemma contains_cons (x : string) (c : ascii) (y : string) :
  Str.contains x y = true -> Str.contains x (String c y) = true.
Proof. intros H. cbn [Str.contains]. rewrite H. apply orb_true_r. Qed.

Lemma contains_app (x a b : string) : Str.contains x (a +:+ x +:+ b) = true.
Proof.
  induction a as [|c a IH]; [exact (contains_here x b)|].
  rewrite str_app_cons. by apply contains_cons.
Qed.

Lemma contains_app_r (x a b : string) :
  Str.contains x b = true -> Str.contains x (a +:+ b) = true.
Proof.
  intros H. induction a as [|c a IH]; [exact H|].
  rewrite str_app_cons. by apply contains_cons.
Qed.

Lemma prefix_weaken (x y l : string) :
  String.prefix (x +:+ y) l = true -> String.prefix x l = true.
Proof.
  revert l. induction x as [|a x IH]; intros l; [by destruct l|].
  rewrite str_app_cons. destruct l as [|b l]; [discriminate|]. cbn.
  destruct (ascii_dec a b); [apply IH | discriminate].
Qed.

Lemma contains_weaken (x y l : string) :
  Str.contains (x +:+ y) l = true -> Str.contains x l = true.
Proof.
  induction l as [|c l IH]; cbn [Str.contains].
  - rewrite !orb_false_r. apply prefix_weaken.
  - intros [H|H]%orb_true_iff; apply orb_true_iff; [left | right; auto].
    by apply prefix_weaken in H.
Qed.

Lemma join_elem (sep t : string) (l : list string) :
  t ∈ l -> exists a b, Str.join sep l = a +:+ t +:+ b.
Proof.
  induction l as [|x l IH]; [by intros ?%elem_of_nil|].
  intros [->|Hin]%elem_of_cons.
  - exists EmptyString. destruct l; cbn [Str.join].
    + exists EmptyString. by rewrite str_app_nil_r.
    + eexists. reflexivity.
  - destruct (IH Hin) as (a & b & E). destruct l as [|y l]; [by apply elem_of_nil in Hin|].
    exists (x +:+ sep +:+ a), b.
    change (Str.join sep (x :: y :: l)) with (x +:+ sep +:+ Str.join sep (y :: l)).
    rewrite E. by rewrite !str_app_assoc.
Qed.

Lemma last_char_app (a b : string) (c : ascii) :
  last_char b = Some c -> last_char (a +:+ b) = Some c.
Proof.
  intros H. induction a as [|x a IH]; [exact H|].
  rewrite str_app_cons. cbn. destruct (a +:+ b) eqn:E; [discriminate IH | exact IH].
Qed.

Lemma last_char_join (sep x : string) (l : list string) (c : ascii) :
  last_char x = Some c -> last_char (Str.join sep (l ++ [x])) = Some c.
Proof.
  intros H. induction l as [|y l IH]; [exact H|].
  change ((y :: l) ++ [x])%list with (y :: (l ++ [x]))%list.
  destruct (l ++ [x])%list as [|z l'] eqn:E; [by destruct l|].
  change (Str.join sep (y :: z :: l')) with (y +:+ sep +:+ Str.join sep (z :: l')).
  by do 2 apply last_char_app.
Qed.

Lemma last_char_str (r x : string) (ps : list string) (c : ascii) :
  last_char x = Some c ->
  last_char (pathlib.str (pathlib.mkPath r (ps ++ [x]))) = Some c.
Proof.
  intros H. unfold pathlib.str. cbn [pathlib.root pathlib.parts].
  destruct (ps ++ [x])%list eqn:E; [by destruct ps|]. rewrite <- E.
  destruct r; apply last_char_app, last_char_join, H.
Qed.

Lemma truediv_name (p : pathlib.PurePath) (x : string) :
  pathlib.Path x = pathlib.mkPath EmptyString [x] ->
  (p / x)%path = pathlib.mkPath (pathlib.root p) (pathlib.parts p ++ [x]).
Proof. intros E. unfold pathlib.truediv. by rewrite E. Qed.

Lemma pinned_last prefix : last_char (pinned prefix) = Some "d"%char.
Proof.
  unfold pinned. rewrite !truediv_name by reflexivity.
  by apply last_char_str.
Qed.

Lemma condarc_last prefix : last_char (condarc prefix) = Some "c"%char.
Proof.
  unfold condarc. rewrite !truediv_name by reflexivity.
  by apply last_char_str.
Qed.

Lemma real_last h : last_char (real h) = Some "l"%char.
Proof. by apply last_char_app. Qed.

Lemma last_char_ne (a b : string) : last_char a <> last_char b -> a <> b.
Proof. congruence. Qed.

(** [split] on a string with a known first field. *)
Lemma split_nochar (c : ascii) (A : string) :
  Str.has_char c A = false -> Str.split c A = [A].
Proof.
  induction A as [|x A IH]; [reflexivity|]. cbn [Str.split Str.has_char].
  intros [Hx HA]%orb_false_iff. rewrite Hx, (IH HA). reflexivity.
Qed.

Lemma split_field (c : ascii) (A rest : string) :
  Str.has_char c A = false ->
  Str.split c (A +:+ String c rest) = A :: Str.split c rest.
Proof.
  induction A as [|x A IH].
  - intros _. change (EmptyString +:+ String c rest) with (String c rest).
    cbn [Str.split]. by rewrite Ascii.eqb_refl.
  - rewrite str_app_cons. cbn [Str.split Str.has_char].
    intros [Hx HA]%orb_false_iff. rewrite Hx, (IH HA). reflexivity.
Qed.

(** Assignment to a key. *)
Lemma dict_get_set_eq k v d : dict_get k (dict_set k v d) = Some v.
Proof.
  induction d as [|[k' v'] d IH]; cbn; [by rewrite String.eqb_refl|].
  destruct (String.eqb k' k) eqn:E; cbn; by rewrite E.
Qed.

Lemma dict_get_set_ne k k' v d :
  k' <> k -> dict_get k' (dict_set k v d) = dict_get k' d.
Proof.
  intros Hne. assert (Hf : String.eqb k k' = false) by (apply String.eqb_neq; congruence).
  induction d as [|[k0 v0] d IH]; cbn; [by rewrite Hf|].
  destruct (String.eqb k0 k) eqn:E; cbn; [|by rewrite IH].
  apply String.eqb_eq in E as ->. by rewrite Hf.
Qed.

Lemma elem_of_dict_set_ne k k' v v' d :
  k' <> k -> (k', v') ∈ dict_set k v d <-> (k', v') ∈ d.
Proof.
  intros Hne. induction d as [|[k0 v0] d IH]; cbn.
  - rewrite list_elem_of_singleton. split; [congruence | by intros ?%elem_of_nil].
  - destruct (String.eqb k0 k) eqn:E; rewrite !elem_of_cons.
    + apply String.eqb_eq in E as ->. split; intros [?|?]; auto; congruence.
    + by rewrite IH.
Qed.

Lemma elem_of_dict_set_eq k v v' d :
  NoDup d.*1 -> (k, v') ∈ dict_set k v d -> v' = v.
Proof.
  induction d as [|[k0 v0] d IH]; cbn.
  - intros _ ?%list_elem_of_singleton. congruence.
  - intros [Hk0 Hd]%NoDup_cons. destruct (String.eqb k0 k) eqn:E.
    + apply String.eqb_eq in E as ->. intros [?|Hin]%elem_of_cons; [congruence|].
      destruct Hk0. apply list_elem_of_fmap. by exists (k, v').
    + apply String.eqb_neq in E. intros [?|Hin]%elem_of_cons; [congruence | auto].
Qed.

Lemma elem_of_dict_set k v d : exists k0, k0 = k /\ (k0, v) ∈ dict_set k v d.
Proof.
  exists k. split; [done|]. induction d as [|[k0 v0] d IH]; cbn.
  - apply list_elem_of_singleton. done.
  - destruct (String.eqb k0 k) eqn:E.
    + apply String.eqb_eq in E as ->. apply elem_of_cons. by left.
    + apply elem_of_cons. by right.
Qed.

Lemma dict_set_present k v d : k ∈ d.*1 -> (dict_set k v d).*1 = d.*1.
Proof.
  induction d as [|[k0 v0] d IH]; cbn; [by intros ?%elem_of_nil|].
  destruct (String.eqb k0 k) eqn:E; [done|]. apply String.eqb_neq in E.
  intros [?|Hin]%elem_of_cons; [congruence|]. cbn. by rewrite IH.
Qed.

Lemma dict_set_absent k v d : k ∉ d.*1 -> dict_set k v d = (d ++ [(k, v)])%list.
Proof.
  induction d as [|[k0 v0] d IH]; cbn; [done|].
  intros [Hne Hd]%not_elem_of_cons.
  assert (String.eqb k0 k = false) as -> by (apply String.eqb_neq; congruence).
  by rewrite IH.
Qed.

(** ** What each phase does to each part of the state *)

Section Phases.
Variables (h : Host) (url text prefix c : string) (env : option loc) (s : State).

Lemma sys_path_downloaded : sys_path (downloaded url text s) = sys_path s.
Proof. reflexivity. Qed.
Lemma sys_path_installed : sys_path (installed h text prefix s) = sys_path s.
Proof. reflexivity. Qed.
Lemma sys_path_configured :
  sys_path (configured h prefix s) =
  let sp := site_packages (normal prefix) (sys_version_info h).1 (sys_version_info h).2 in
  if bool_decide (sp ∈ sys_path s) then sys_path s else sp :: sys_path s.
Proof. reflexivity. Qed.
Lemma sys_path_patched : sys_path (patched h prefix env c s) = sys_path s.
Proof. reflexivity. Qed.

Lemma heap_downloaded : heap (downloaded url text s) = heap s.
Proof. reflexivity. Qed.
Lemma heap_installed : heap (installed h text prefix s) = heap s.
Proof. reflexivity. Qed.
Lemma heap_configured : heap (configured h prefix s) = heap s.
Proof. reflexivity. Qed.
Lemma heap_patched :
  heap (patched h prefix env c s) =
  rebound env "LD_LIBRARY_PATH" (ld_library_path (normal prefix)) (heap s).
Proof. reflexivity. Qed.

Lemma files_downloaded :
  files (disk (downloaded url text s)) =
  appended installer_fn text (opened installer_fn "wb" (files (disk s))).
Proof. reflexivity. Qed.

Lemma files_installed :
  files (disk (installed h text prefix s)) =
  delete installer_fn (files (installer_effect h text ["-bfp"; prefix] (disk s))).
Proof. reflexivity. Qed.

Lemma files_configured :
  files (disk (configured h prefix s)) =
  appended ipython_config
    (exec_lines (normal prefix) (sys_version_info h).1 (sys_version_info h).2)
  (opened ipython_config "a"
  (appended (condarc prefix) ("always_yes: true" +:+ Str.nl)
  (opened (condarc prefix) "a"
  (appended (pinned prefix) (pin_cudatoolkit (cuda_version h))
  (appended (pinned prefix)
     (pin_python_abi (sys_version_info h).1 (sys_version_info h).2)
  (appended (pinned prefix)
     (pin_python (sys_version_info h).1 (sys_version_info h).2)
  (opened (pinned prefix) "a" (files (disk s))))))))).
Proof. reflexivity. Qed.

Lemma files_patched :
  files (disk (patched h prefix env c s)) =
  appended (sys_executable h) (exec_line (shim_env prefix env s) (normal prefix))
  (appended (sys_executable h) shebang
  (opened (sys_executable h) "w"
  (<[real h := c]> (delete (sys_executable h) (files (disk s)))))).
Proof. reflexivity. Qed.

End Phases.

Lemma lookup_appended_eq f text fs :
  appended f text fs !! f = Some (default EmptyString (fs !! f) +:+ text).
Proof. apply lookup_insert_eq. Qed.

Lemma lookup_appended_ne f p text fs : f <> p -> appended f text fs !! p = fs !! p.
Proof. apply lookup_insert_ne. Qed.

Lemma lookup_opened_a f fs :
  opened f "a" fs !! f = Some (default EmptyString (fs !! f)).
Proof. apply lookup_insert_eq. Qed.

Lemma lookup_opened_w f fs : opened f "w" fs !! f = Some EmptyString.
Proof. apply lookup_insert_eq. Qed.

Lemma lookup_opened_ne f p mode fs : f <> p -> opened f mode fs !! p = fs !! p.
Proof. apply lookup_insert_ne. Qed.

(** ** Frame conditions *)

Lemma config_paths_ne prefix p :
  p ∉ config_paths prefix ->
  installer_fn <> p /\ pinned prefix <> p /\ condarc prefix <> p /\ ipython_config <> p.
Proof.
  unfold config_paths. rewrite !not_elem_of_cons. intros (?&?&?&?&_). auto.
Qed.

Lemma pinned_apart prefix :
  pinned prefix <> installer_fn /\ pinned prefix <> condarc prefix /\
  pinned prefix <> ipython_config.
Proof.
  repeat split; apply last_char_ne;
    rewrite pinned_last, ?condarc_last; discriminate.
Qed.

Lemma condarc_apart prefix :
  condarc prefix <> installer_fn /\ condarc prefix <> ipython_config.
Proof.
  repeat split; apply last_char_ne; rewrite condarc_last; discriminate.
Qed.

Lemma real_apart h prefix :
  real h <> sys_executable h /\ real h ∉ config_paths prefix.
Proof.
  split.
  - intros E. apply (f_equal String.length) in E. unfold real in E.
    assert (L : forall a b, String.length (a +:+ b) = String.length a + String.length b).
    { intros a b. induction a as [|x a IH]; [done|]. rewrite str_app_cons. cbn. by rewrite IH. }
    rewrite L in E. cbn in E. lia.
  - unfold config_paths. rewrite !not_elem_of_cons. repeat split;
      try apply not_elem_of_nil; apply last_char_ne;
      rewrite real_last, ?pinned_last, ?condarc_last; discriminate.
Qed.

(** The files a configuration phase does not write are left as they are. *)
Lemma configured_frame h prefix s p :
  pinned prefix <> p -> condarc prefix <> p -> ipython_config <> p ->
  files (disk (configured h prefix s)) !! p = files (disk s) !! p.
Proof.
  intros. rewrite files_configured.
  repeat first [rewrite lookup_appended_ne by done | rewrite lookup_opened_ne by done].
  reflexivity.
Qed.

Lemma fetched_frame h url text prefix s p :
  installer_fn <> p -> installer_keeps h p ->
  files (disk (installed h text prefix (downloaded url text s))) !! p = files (disk s) !! p.
Proof.
  intros Hp Hk. rewrite files_installed, lookup_delete_ne, Hk, files_downloaded by done.
  by rewrite lookup_appended_ne, lookup_opened_ne.
Qed.

Lemma patched_frame h prefix env c s p :
  sys_executable h <> p -> real h <> p ->
  files (disk (patched h prefix env c s)) !! p = files (disk s) !! p.
Proof.
  intros. rewrite files_patched.
  by rewrite !lookup_appended_ne, lookup_opened_ne, lookup_insert_ne, lookup_delete_ne.
Qed.

Lemma patched_executable h prefix env c s :
  files (disk (patched h prefix env c s)) !! sys_executable h =
  Some (shebang +:+ exec_line (shim_env prefix env s) (normal prefix)).
Proof.
  rewrite files_patched, lookup_appended_eq, lookup_appended_eq, lookup_opened_w.
  reflexivity.
Qed.

Lemma patched_real h prefix env c s :
  files (disk (patched h prefix env c s)) !! real h = Some c.
Proof.
  destruct (real_apart h prefix) as [Hne _].
  assert (sys_executable h <> real h) by congruence.
  rewrite files_patched, !lookup_appended_ne, lookup_opened_ne by done.
  apply lookup_insert_eq.
Qed.

(** * The environment written into the shim *)

Lemma shim_env_start prefix env h url text s :
  shim_env prefix env
    (configured h prefix (installed h text prefix (downloaded url text s))) =
  shim_env prefix env s.
Proof. reflexivity. Qed.

Lemma run_executable h url prefix env s s' :
  install_from_url h url prefix env s = (Ok tt, s') ->
  files (disk s') !! sys_executable h =
  Some (shebang +:+ exec_line (shim_env prefix env s) (normal prefix)).
Proof.
  intros (r & c & _ & _ & _ & ->)%install_from_url_Ok.
  by rewrite patched_executable, shim_env_start.
Qed.

(** C1. Whatever mapping the caller passes, the shim's variables are the
    items of that mapping with [LD_LIBRARY_PATH] set to the quoted value
    [<prefix>/lib:$LD_LIBRARY_PATH]: the value computed here replaces the
    caller's, every other pair of the caller is written as [key=value],
    untouched, and the [LD_LIBRARY_PATH=] assignment of the shim opens
    (after its quote) with [<prefix>/lib:].  [<prefix>] is the prefix as
    [pathlib] renders it. *)
Theorem shim_environment h url prefix env s s' :
  install_from_url h url prefix env s = (Ok tt, s') ->
  NoDup (caller_dict env (heap s)).*1 ->
  let caller := caller_dict env (heap s) in
  let value := Str.dquote +:+ normal prefix +:+ "/lib:$LD_LIBRARY_PATH" +:+ Str.dquote in
  let d := dict_set LD_LIBRARY_PATH value caller in
  let line :=
    "exec env " +:+ Str.join " " (map (fun kv => kv.1 +:+ "=" +:+ kv.2) d) +:+ " "
      +:+ normal prefix +:+ "/bin/python -x $@" +:+ Str.nl in
  files (disk s') !! sys_executable h = Some ("#!/bin/bash" +:+ Str.nl +:+ line) /\
  dict_get LD_LIBRARY_PATH d = Some value /\
  (forall v, (LD_LIBRARY_PATH, v) ∈ d -> v = value) /\
  (forall k v, k <> LD_LIBRARY_PATH -> (k, v) ∈ d <-> (k, v) ∈ caller) /\
  (forall k v, (k, v) ∈ caller -> k <> LD_LIBRARY_PATH ->
     Str.contains (k +:+ "=" +:+ v) line = true) /\
  Str.contains (LD_LIBRARY_PATH +:+ "=" +:+ Str.dquote +:+ normal prefix +:+ "/lib:") line
    = true.
Proof.
  intros Hrun Hnodup caller value d line.
  assert (Hin : forall k v, (k, v) ∈ d ->
            Str.contains (k +:+ "=" +:+ v) line = true).
  { intros k v Hkv. unfold line.
    destruct (join_elem " " (k +:+ "=" +:+ v)
                (map (fun kv : string * string => kv.1 +:+ "=" +:+ kv.2) d))
      as (a & b & ->).
    { apply list_elem_of_In.
      apply (in_map (fun kv : string * string => kv.1 +:+ "=" +:+ kv.2) d (k, v)).
      by apply list_elem_of_In. }
    apply contains_app_r. generalize (k +:+ "=" +:+ v). intros t.
    rewrite (str_app_assoc a), (str_app_assoc t). apply contains_app. }
  split; [|split; [|split; [|split; [|split]]]].
  - rewrite (run_executable _ _ _ _ _ _ Hrun). reflexivity.
  - apply dict_get_set_eq.
  - intros v. by apply elem_of_dict_set_eq.
  - intros k v Hk. by apply elem_of_dict_set_ne.
  - intros k v Hkv Hk. apply Hin. by apply elem_of_dict_set_ne.
  - destruct (elem_of_dict_set LD_LIBRARY_PATH value caller) as (k0 & -> & Hld).
    apply Hin in Hld. unfold value in Hld.
    apply (contains_weaken _ ("$LD_LIBRARY_PATH" +:+ Str.dquote)).
    rewrite !str_app_assoc. exact Hld.
Qed.

Lemma shim_environment_witness :
  files (disk (install_from_url Demo.host Demo.url "/usr/local/" (Some 0)
                 Demo.conflicting).2) !! "/usr/bin/python3" =
  Some ("#!/bin/bash" +:+ Str.nl +:+
        "exec env LD_LIBRARY_PATH=" +:+ Str.dquote +:+ "/usr/local/lib:$LD_LIBRARY_PATH"
          +:+ Str.dquote +:+ " FOO=bar /usr/local/bin/python -x $@" +:+ Str.nl).
Proof.
  pose proof (shim_environment Demo.host Demo.url "/usr/local/" (Some 0) Demo.conflicting
                (install_from_url Demo.host Demo.url "/usr/local/" (Some 0)
                   Demo.conflicting).2
                ltac:(vm_compute; reflexivity) ltac:(compute_done)) as [H _].
  vm_compute in H. vm_compute. exact H.
Defined.

(** * The module search path *)

Lemma run_sys_path h url prefix env s s' :
  install_from_url h url prefix env s = (Ok tt, s') ->
  sys_path s' =
  let sp := site_packages (normal prefix) (sys_version_info h).1 (sys_version_info h).2 in
  if bool_decide (sp ∈ sys_path s) then sys_path s else sp :: sys_path s.
Proof.
  intros (r & c & _ & _ & _ & ->)%install_from_url_Ok.
  rewrite sys_path_patched, sys_path_configured. reflexivity.
Qed.

(** C2, as the code has it.  After the rebinding the site-packages path
    is on [sys.path].  When it was not there before, it is inserted at
    index 0 and occurs exactly once.  When it was there already, [sys.path]
    is left as it was: nothing is inserted, and the path stays where it
    stood, as many times as it stood there. *)
Theorem sys_path_rebinding h url prefix env s s' :
  install_from_url h url prefix env s = (Ok tt, s') ->
  let sp := site_packages (normal prefix) (sys_version_info h).1 (sys_version_info h).2 in
  sp ∈ sys_path s' /\
  (sp ∉ sys_path s ->
     sys_path s' = sp :: sys_path s /\ sys_path s' !! 0 = Some sp /\
     count_occ string_dec (sys_path s') sp = 1) /\
  (sp ∈ sys_path s -> sys_path s' = sys_path s).
Proof.
  intros Hrun sp. rewrite (run_sys_path _ _ _ _ _ _ Hrun). cbn zeta. fold sp.
  case_bool_decide as Hsp.
  - split; [done|]. split; [done|]. done.
  - split; [apply elem_of_cons; by left|]. split; [|done]. intros _.
    split; [done|]. split; [done|]. cbn.
    destruct (string_dec sp sp); [|done]. f_equal.
    apply count_occ_not_In. by rewrite <- list_elem_of_In.
Qed.

Lemma sys_path_rebinding_witness :
  sys_path (install_from_url Demo.host Demo.url "/usr/local" None Demo.state0).2 =
  ["/usr/local/lib/python3.7/site-packages"; "/content"; "/usr/lib/python3.7"].
Proof.
  pose proof (sys_path_rebinding Demo.host Demo.url "/usr/local" None Demo.state0
                (install_from_url Demo.host Demo.url "/usr/local" None Demo.state0).2
                ltac:(vm_compute; reflexivity)) as (_ & H & _).
  destruct H as [H _]; [compute_done|].
  vm_compute in H. vm_compute. exact H.
Defined.

(** The claim as it was stated fails when the path is on [sys.path]
    already, behind another entry: it is not moved to the front. *)
Lemma sys_path_front_counterexample :
  ~ (forall h url prefix env s s',
       install_from_url h url prefix env s = (Ok tt, s') ->
       let sp := site_packages (normal prefix) (sys_version_info h).1 (sys_version_info h).2 in
       sys_path s' !! 0 = Some sp /\ count_occ string_dec (sys_path s') sp = 1).
Proof.
  intros H.
  destruct (H Demo.host Demo.url "/usr/local" None Demo.already
              (install_from_url Demo.host Demo.url "/usr/local" None Demo.already).2)
    as [Hfront _].
  - vm_compute. reflexivity.
  - vm_compute in Hfront. discriminate.
Qed.

(** * The caller's dictionary *)

Lemma run_heap h url prefix env s s' :
  install_from_url h url prefix env s = (Ok tt, s') ->
  heap s' = rebound env LD_LIBRARY_PATH (ld_library_path (normal prefix)) (heap s).
Proof.
  intros (r & c & _ & _ & _ & ->)%install_from_url_Ok.
  rewrite heap_patched. reflexivity.
Qed.

(** C10, as the code has it.  A mapping that is not empty is changed in
    place: after the call the caller's dictionary binds [LD_LIBRARY_PATH]
    to the quoted value computed here, every other entry of it is as it
    was, and no other dictionary is touched.  An empty mapping is left
    empty: [env or {}] makes a new dictionary for it, as it does for
    [None]. *)
Theorem caller_env_mutated h url prefix s s' l d :
  install_from_url h url prefix (Some l) s = (Ok tt, s') ->
  heap s !! l = Some d ->
  let value := ld_library_path (normal prefix) in
  (d <> [] ->
     heap s' = <[l := dict_set LD_LIBRARY_PATH value d]> (heap s) /\
     heap s' !! l = Some (dict_set LD_LIBRARY_PATH value d) /\
     dict_get LD_LIBRARY_PATH (dict_set LD_LIBRARY_PATH value d) = Some value /\
     (forall k, k <> LD_LIBRARY_PATH ->
        dict_get k (dict_set LD_LIBRARY_PATH value d) = dict_get k d) /\
     (forall k v, k <> LD_LIBRARY_PATH ->
        (k, v) ∈ dict_set LD_LIBRARY_PATH value d <-> (k, v) ∈ d) /\
     (forall l', l' <> l -> heap s' !! l' = heap s !! l')) /\
  (d = [] -> heap s' !! l = Some []).
Proof.
  intros Hrun Hd value. rewrite (run_heap _ _ _ _ _ _ Hrun). unfold rebound.
  rewrite Hd. fold value. split.
  - intros Hne. destruct d as [|kv d]; [done|].
    split; [done|]. split; [|split; [|split; [|split]]].
    + apply list_lookup_insert_eq. by eapply lookup_lt_Some.
    + apply dict_get_set_eq.
    + intros k Hk. by apply dict_get_set_ne.
    + intros k v Hk. by apply elem_of_dict_set_ne.
    + intros l' Hl'. by apply list_lookup_insert_ne.
  - intros ->. rewrite lookup_app_l by (by eapply lookup_lt_Some). exact Hd.
Qed.

Lemma caller_env_mutated_witness :
  heap (install_from_url Demo.host Demo.url "/usr/local" (Some 0) Demo.state0).2 !! 0 =
  Some [("FOO", "bar");
        ("LD_LIBRARY_PATH",
         Str.dquote +:+ "/usr/local/lib:$LD_LIBRARY_PATH" +:+ Str.dquote)].
Proof.
  pose proof (caller_env_mutated Demo.host Demo.url "/usr/local" Demo.state0
                (install_from_url Demo.host Demo.url "/usr/local" (Some 0) Demo.state0).2
                0 [("FOO", "bar")]
                ltac:(vm_compute; reflexivity) ltac:(reflexivity)) as [H _].
  destruct H as (_ & H & _); [discriminate|].
  vm_compute in H. vm_compute. exact H.
Defined.

(** The claim as it was stated fails for a mapping that is not [None]
    but empty: the caller's dictionary is still empty after the call. *)
Lemma caller_env_counterexample :
  ~ (forall h url prefix s s' l d,
       install_from_url h url prefix (Some l) s = (Ok tt, s') ->
       heap s !! l = Some d ->
       exists d', heap s' !! l = Some d' /\
         dict_get LD_LIBRARY_PATH d' = Some (ld_library_path (normal prefix))).
Proof.
  intros H.
  destruct (H Demo.host Demo.url "/usr/local" Demo.empty_env
              (install_from_url Demo.host Demo.url "/usr/local" (Some 0) Demo.empty_env).2
              0 [])
    as (d' & Hd' & Hget).
  - vm_compute. reflexivity.
  - reflexivity.
  - vm_compute in Hd'. injection Hd' as <-. discriminate.
Qed.

(** * The executable and its shim *)

Lemma run_real h url prefix env s s' :
  install_from_url h url prefix env s = (Ok tt, s') ->
  sys_executable h ∉ config_paths prefix ->
  installer_keeps h (sys_executable h) ->
  exists original,
    files (disk s) !! sys_executable h = Some original /\
    files (disk s') !! real h = Some original.
Proof.
  intros (r & c & _ & _ & Hc & ->)%install_from_url_Ok Hexe Hkeep.
  apply config_paths_ne in Hexe as (? & ? & ? & ?).
  rewrite configured_frame, fetched_frame in Hc by done.
  exists c. split; [exact Hc | apply patched_real].
Qed.

(** C3. After one successful run the file at [sys.executable] is the
    two-line script [#!/bin/bash], [exec env <KEY=VALUE ...>
    <prefix>/bin/python -x $@], and [<sys.executable>.real] holds what
    [sys.executable] held before the run, byte for byte.  The run is on a
    host where the executable is not one of the files the run writes its
    configuration to, and where the installer leaves it alone. *)
Theorem shim_replaces_executable h url prefix env s s' :
  install_from_url h url prefix env s = (Ok tt, s') ->
  sys_executable h ∉ config_paths prefix ->
  installer_keeps h (sys_executable h) ->
  exists original vars,
    files (disk s) !! sys_executable h = Some original /\
    vars = Str.join " " (map (fun kv => kv.1 +:+ "=" +:+ kv.2) (shim_env prefix env s)) /\
    files (disk s') !! sys_executable h =
      Some ("#!/bin/bash" +:+ Str.nl +:+
            "exec env " +:+ vars +:+ " " +:+ normal prefix +:+ "/bin/python -x $@" +:+ Str.nl) /\
    files (disk s') !! (sys_executable h +:+ ".real") = Some original.
Proof.
  intros Hrun Hexe Hkeep.
  destruct (run_real _ _ _ _ _ _ Hrun Hexe Hkeep) as (original & H0 & H1).
  exists original, (envstr (shim_env prefix env s)).
  split; [exact H0|]. split; [reflexivity|]. split; [|exact H1].
  rewrite (run_executable _ _ _ _ _ _ Hrun). reflexivity.
Qed.

(** The stub installer of the examples leaves alone every file whose name
    does not end like its marker. *)
Lemma stub_keeps p : last_char p <> Some "r"%char -> installer_keeps Demo.host p.
Proof.
  intros Hp text args d. cbn [installer_effect Demo.host]. unfold Demo.stub_effect.
  destruct args as [|a [|target [|]]]; try reflexivity.
  cbn. apply lookup_insert_ne. intros <-. apply Hp. by apply last_char_app.
Qed.

Lemma shim_replaces_executable_witness :
  let s' := (install_from_url Demo.host Demo.url "/usr/local" (Some 0) Demo.state0).2 in
  files (disk s') !! "/usr/bin/python3" =
    Some ("#!/bin/bash" +:+ Str.nl +:+
          "exec env FOO=bar LD_LIBRARY_PATH=" +:+ Str.dquote
            +:+ "/usr/local/lib:$LD_LIBRARY_PATH" +:+ Str.dquote
            +:+ " /usr/local/bin/python -x $@" +:+ Str.nl) /\
  files (disk s') !! "/usr/bin/python3.real" = Some "ELF".
Proof.
  pose proof (shim_replaces_executable Demo.host Demo.url "/usr/local" (Some 0) Demo.state0
                (install_from_url Demo.host Demo.url "/usr/local" (Some 0) Demo.state0).2
                ltac:(vm_compute; reflexivity) ltac:(compute_done)
                ltac:(apply stub_keeps; discriminate))
    as (original & vars & H0 & -> & H1 & H2).
  vm_compute in H0. injection H0 as <-.
  vm_compute in H1, H2. vm_compute. exact (conj H1 H2).
Defined.

(** ** Running twice *)

Lemma dict_set_again k v d : dict_set k v (dict_set k v d) = dict_set k v d.
Proof.
  induction d as [|[k0 v0] d IH]; cbn.
  - by rewrite String.eqb_refl.
  - destruct (String.eqb k0 k) eqn:E; cbn; rewrite E; [done | by rewrite IH].
Qed.

Lemma shim_env_again h url prefix env s s' :
  install_from_url h url prefix env s = (Ok tt, s') ->
  shim_env prefix env s' = shim_env prefix env s.
Proof.
  intros Hrun. unfold shim_env. rewrite (run_heap _ _ _ _ _ _ Hrun).
  unfold rebound, caller_dict, LD_LIBRARY_PATH. destruct env as [l|]; [|done].
  destruct (heap s !! l) as [[|kv d]|] eqn:Hl.
  - rewrite lookup_app_l by (by eapply lookup_lt_Some). by rewrite Hl.
  - rewrite list_lookup_insert_eq by (by eapply lookup_lt_Some). cbn [default].
    apply dict_set_again.
  - apply lookup_ge_None in Hl.
    rewrite lookup_app_r by done.
    destruct (l - length (heap s)) as [|n] eqn:En; cbn; [reflexivity | by destruct n].
Qed.

(** C5. Two successful runs against the same prefix and executable: the
    second run renames what the first one left at [sys.executable], the
    shim, to [<sys.executable>.real].  After it both paths hold the shim,
    and neither holds the interpreter that was there at the start (which
    the first run had kept at [.real]). *)
Theorem second_run_loses_original h url prefix env s s1 s2 :
  install_from_url h url prefix env s = (Ok tt, s1) ->
  install_from_url h url prefix env s1 = (Ok tt, s2) ->
  sys_executable h ∉ config_paths prefix ->
  installer_keeps h (sys_executable h) ->
  exists original shim,
    shim = shebang +:+ exec_line (shim_env prefix env s) (normal prefix) /\
    files (disk s) !! sys_executable h = Some original /\
    files (disk s1) !! sys_executable h = Some shim /\
    files (disk s1) !! (sys_executable h +:+ ".real") = Some original /\
    files (disk s2) !! sys_executable h = Some shim /\
    files (disk s2) !! (sys_executable h +:+ ".real") = Some shim /\
    (original <> shim ->
       files (disk s2) !! sys_executable h <> Some original /\
       files (disk s2) !! (sys_executable h +:+ ".real") <> Some original).
Proof.
  intros Hrun1 Hrun2 Hexe Hkeep.
  destruct (run_real _ _ _ _ _ _ Hrun1 Hexe Hkeep) as (original & H0 & H1).
  destruct (run_real _ _ _ _ _ _ Hrun2 Hexe Hkeep) as (shim & H2 & H3).
  rewrite (run_executable _ _ _ _ _ _ Hrun1) in H2. injection H2 as <-.
  eexists original, _. split; [reflexivity|].
  split; [exact H0|]. split; [exact (run_executable _ _ _ _ _ _ Hrun1)|].
  split; [exact H1|].
  assert (H4 := run_executable _ _ _ _ _ _ Hrun2).
  rewrite (shim_env_again _ _ _ _ _ _ Hrun1) in H4.
  split; [exact H4|]. split; [exact H3|].
  intros Hne. unfold real in H3. rewrite H4, H3. split; congruence.
Qed.

Lemma second_run_loses_original_witness :
  let s1 := (install_from_url Demo.host Demo.url "/usr/local" None Demo.state0).2 in
  let s2 := (install_from_url Demo.host Demo.url "/usr/local" None s1).2 in
  files (disk s1) !! "/usr/bin/python3.real" = Some "ELF" /\
  files (disk s2) !! "/usr/bin/python3.real" = files (disk s1) !! "/usr/bin/python3" /\
  files (disk s2) !! "/usr/bin/python3.real" <> Some "ELF".
Proof.
  pose proof (second_run_loses_original Demo.host Demo.url "/usr/local" None Demo.state0
                (install_from_url Demo.host Demo.url "/usr/local" None Demo.state0).2
                (install_from_url Demo.host Demo.url "/usr/local" None
                   (install_from_url Demo.host Demo.url "/usr/local" None Demo.state0).2).2
                ltac:(vm_compute; reflexivity) ltac:(vm_compute; reflexivity)
                ltac:(compute_done) ltac:(apply stub_keeps; discriminate))
    as (original & shim & -> & H0 & H1 & H2 & H3 & H4 & H5).
  vm_compute in H0. injection H0 as <-.
  cbn zeta. split; [exact H2|]. split; [exact (eq_trans H4 (eq_sym H1))|].
  refine (proj2 (H5 _)). vm_compute. discriminate.
Defined.

(** * The pin file *)

Lemma run_pinned h url prefix env s s' :
  install_from_url h url prefix env s = (Ok tt, s') ->
  sys_executable h <> pinned prefix ->
  installer_keeps h (pinned prefix) ->
  files (disk s') !! pinned prefix =
  Some (default EmptyString (files (disk s) !! pinned prefix) +:+ pins h).
Proof.
  intros (r & c & _ & _ & _ & ->)%install_from_url_Ok Hexe Hkeep.
  destruct (real_apart h prefix) as [_ (_ & ? & _)%config_paths_ne].
  destruct (pinned_apart prefix) as (? & ? & ?).
  destruct (condarc_apart prefix) as (? & ?).
  rewrite patched_frame, files_configured by done.
  rewrite !lookup_appended_ne, !lookup_opened_ne by done.
  rewrite !lookup_appended_ne, !lookup_opened_ne by done.
  rewrite !lookup_appended_eq, lookup_opened_a. cbn [default from_option id].
  rewrite fetched_frame by done.
  unfold pins. by rewrite !str_app_assoc.
Qed.

(** C6. After [N] successful runs against the same prefix ([N >= 1]) the
    pin file holds what it held before, followed by [N] copies of the
    three pin lines, in the order the runs appended them; started without
    a pin file, it holds exactly the [N] copies.  No run rewrites the file
    or drops a line that is there already.  The runs are on a host where
    the pin file is not the executable and the installer leaves it
    alone. *)
Theorem pins_accumulate N h url prefix env s s' :
  1 <= N ->
  runs N h url prefix env s = (Ok tt, s') ->
  sys_executable h <> pinned prefix ->
  installer_keeps h (pinned prefix) ->
  files (disk s') !! pinned prefix =
    Some (default EmptyString (files (disk s) !! pinned prefix) +:+ copies N (pins h)) /\
  (files (disk s) !! pinned prefix = None ->
   files (disk s') !! pinned prefix = Some (copies N (pins h))).
Proof.
  intros HN Hruns Hexe Hkeep.
  assert (G : forall n s s',
    runs (S n) h url prefix env s = (Ok tt, s') ->
    files (disk s') !! pinned prefix =
    Some (default EmptyString (files (disk s) !! pinned prefix) +:+ copies (S n) (pins h))).
  { intros n. induction n as [|n IH]; intros s0 s0'.
    - cbn [runs]. intros ([] & s1 & H1 & [_ ->]%ret_Ok)%bind_Ok.
      rewrite (run_pinned _ _ _ _ _ _ H1 Hexe Hkeep). cbn [copies].
      by rewrite str_app_nil_r.
    - intros ([] & s1 & H1 & Hn)%bind_Ok.
      rewrite (IH _ _ Hn), (run_pinned _ _ _ _ _ _ H1 Hexe Hkeep).
      cbn [default from_option id]. rewrite str_app_assoc. reflexivity. }
  destruct N as [|n]; [lia|]. rewrite (G _ _ _ Hruns).
  split; [reflexivity|]. by intros ->.
Qed.

Lemma pins_accumulate_witness :
  files (disk (runs 3 Demo.host Demo.url "/usr/local" None Demo.state0).2)
    !! "/usr/local/conda-meta/pinned" =
  Some (copies 3 ("python 3.7.*" +:+ Str.nl +:+ "python_abi 3.7.* *cp37*" +:+ Str.nl
                  +:+ "cudatoolkit 11.2.*" +:+ Str.nl)).
Proof.
  pose proof (pins_accumulate 3 Demo.host Demo.url "/usr/local" None Demo.state0
                (runs 3 Demo.host Demo.url "/usr/local" None Demo.state0).2
                ltac:(lia) ltac:(vm_compute; reflexivity) ltac:(discriminate)
                ltac:(apply stub_keeps; rewrite pinned_last; discriminate)) as [_ H].
  specialize (H ltac:(vm_compute; reflexivity)).
  vm_compute in H. vm_compute. exact H.
Defined.

(** ** The trace of a successful run *)

Lemma run_log h url prefix env s s' :
  install_from_url h url prefix env s = (Ok tt, s') ->
  exists r, web h url = inr r /\ fault r = None /\
    log s' = (log s ++ trace h url prefix env s (body r))%list.
Proof.
  intros (r & c & Hweb & Hfault & _ & ->)%install_from_url_Ok.
  exists r. split; [exact Hweb|]. split; [exact Hfault|].
  unfold patched, configured, installed, downloaded, written.
  autorewrite with fields. rewrite <- !app_assoc. reflexivity.
Qed.

Lemma cuda_version_fields h A B tail :
  Str.has_char "." A = false -> Str.has_char "." B = false ->
  tail = EmptyString \/ (exists rest, tail = "." +:+ rest) ->
  environ h !! "CUDA_VERSION" = Some (A +:+ "." +:+ B +:+ tail) ->
  cuda_version h = A +:+ "." +:+ B.
Proof.
  intros HA HB Htail Henv. unfold cuda_version, environ_get. rewrite Henv.
  cbn [default from_option id].
  change (A +:+ "." +:+ B +:+ tail) with (A +:+ String "." (B +:+ tail)).
  rewrite (split_field _ _ _ HA).
  destruct Htail as [->|[rest ->]].
  - rewrite str_app_nil_r, (split_nochar _ _ HB). reflexivity.
  - change (B +:+ "." +:+ rest) with (B +:+ String "." rest).
    rewrite (split_field _ _ _ HB). reflexivity.
Qed.

Lemma cuda_version_default h :
  environ h !! "CUDA_VERSION" = None -> cuda_version h = "*.*".
Proof. intros Henv. unfold cuda_version, environ_get. by rewrite Henv. Qed.

(** C7. The three lines a run writes to the pin file, one after the
    other: [python <maj>.<min>.*], [python_abi <maj>.<min>.* *cp<maj><min>*]
    for the version of the running interpreter, and [cudatoolkit <v>.*]
    where [<v>] is the first two dot-separated fields of [CUDA_VERSION],
    [A.B] for [A.B.C...], and [*.*] when the variable is not set, which
    makes the line [cudatoolkit *.*.*]. *)
Theorem pin_lines h url prefix env s s' :
  install_from_url h url prefix env s = (Ok tt, s') ->
  let maj := Str.of_N (sys_version_info h).1 in
  let min := Str.of_N (sys_version_info h).2 in
  exists before after v,
    log s' =
      (before ++
       [ EWrite (pinned prefix) ("python " +:+ maj +:+ "." +:+ min +:+ ".*" +:+ Str.nl);
         EWrite (pinned prefix)
           ("python_abi " +:+ maj +:+ "." +:+ min +:+ ".* *cp" +:+ maj +:+ min +:+ "*"
              +:+ Str.nl);
         EWrite (pinned prefix) ("cudatoolkit " +:+ v +:+ ".*" +:+ Str.nl) ] ++
       after)%list /\
    (forall A B tail,
       Str.has_char "." A = false -> Str.has_char "." B = false ->
       tail = EmptyString \/ (exists rest, tail = "." +:+ rest) ->
       environ h !! "CUDA_VERSION" = Some (A +:+ "." +:+ B +:+ tail) ->
       v = A +:+ "." +:+ B) /\
    (environ h !! "CUDA_VERSION" = None ->
       v = "*.*" /\ "cudatoolkit " +:+ v +:+ ".*" +:+ Str.nl = "cudatoolkit *.*.*" +:+ Str.nl).
Proof.
  intros (r & _ & _ & Hlog)%run_log maj min.
  exists (log s ++ firstn 5 (trace h url prefix env s (body r)))%list,
         (skipn 8 (trace h url prefix env s (body r))), (cuda_version h).
  split; [|split].
  - rewrite Hlog, <- app_assoc. reflexivity.
  - intros A B tail. apply cuda_version_fields.
  - intros ->%cuda_version_default. done.
Qed.

Lemma pin_lines_witness :
  exists before after,
    log (install_from_url Demo.host Demo.url "/usr/local" None Demo.state0).2 =
      (before ++
       [ EWrite "/usr/local/conda-meta/pinned" ("python 3.7.*" +:+ Str.nl);
         EWrite "/usr/local/conda-meta/pinned" ("python_abi 3.7.* *cp37*" +:+ Str.nl);
         EWrite "/usr/local/conda-meta/pinned" ("cudatoolkit 11.2.*" +:+ Str.nl) ] ++
       after)%list.
Proof.
  pose proof (pin_lines Demo.host Demo.url "/usr/local" None Demo.state0
                (install_from_url Demo.host Demo.url "/usr/local" None Demo.state0).2
                ltac:(vm_compute; reflexivity))
    as (before & after & v & Hlog & Hv & _).
  rewrite (Hv "11" "2" ".152" eq_refl eq_refl (or_intror (ex_intro _ "152" eq_refl)) eq_refl)
    in Hlog.
  exists before, after. exact Hlog.
Defined.

(** * Failures *)

(** ** The installer's exit code *)

Lemma bind_cong {A B} (m m' : M A) (k k' : A -> M B) s :
  m s = m' s -> (forall a s1, k a s1 = k' a s1) -> (m ≫= k) s = (m' ≫= k') s.
Proof.
  intros Hm Hk. unfold mbind, M_bind. rewrite Hm.
  destruct (m' s) as [[a|e] s1]; [apply Hk | reflexivity].
Qed.

Lemma bind_call_exit {B} h f argv (k k' : Z -> M B) s :
  (forall c c' s1, k c s1 = k' c' s1) ->
  (call (with_installer_exit f h) argv ≫= k) s = (call h argv ≫= k') s.
Proof.
  intros Hk. unfold mbind, M_bind, call.
  destruct argv as [|prog [|script args]]; [apply Hk..|].
  destruct (String.eqb prog "bash").
  - cbn [installer_effect installer_exit with_installer_exit].
    destruct (files (disk (emit (ESpawn (prog :: script :: args)) s)) !! script);
      apply Hk.
  - destruct (String.eqb prog "chmod" && String.eqb script "+x"); [|apply Hk].
    destruct args as [|p [|]]; [apply Hk | | apply Hk].
    destruct (is_file p _ || _); apply Hk.
Qed.

Lemma run_deletes_installer h url prefix env s s' :
  install_from_url h url prefix env s = (Ok tt, s') ->
  files (disk s') !! installer_fn = None.
Proof.
  intros (r & c & _ & _ & Hc & ->)%install_from_url_Ok.
  destruct (pinned_apart prefix) as (? & _ & _).
  destruct (condarc_apart prefix) as (? & _).
  destruct (real_apart h prefix) as [_ (? & _)%config_paths_ne].
  assert (Hgone : files (disk (configured h prefix
            (installed h (body r) prefix (downloaded url (body r) s)))) !! installer_fn = None).
  { rewrite configured_frame by done. rewrite files_installed. apply lookup_delete_eq. }
  assert (sys_executable h <> installer_fn) by (intros E; rewrite E, Hgone in Hc; done).
  by rewrite patched_frame.
Qed.

(** C4. The exit code of the installer is never looked at: with an
    installer that does the same but exits with any other codes, the run
    ends in the same result and the same state, raising or not.  The file
    [__installer__.sh] is deleted right after the installer has run, and
    is not there when a run has come to its end. *)
Theorem installer_exit_ignored h f url prefix env s :
  install_from_url (with_installer_exit f h) url prefix env s =
    install_from_url h url prefix env s /\
  (forall s', install_from_url h url prefix env s = (Ok tt, s') ->
     files (disk s') !! installer_fn = None /\
     exists before after,
       log s' = (before ++ ESpawn ["bash"; installer_fn; "-bfp"; prefix]
                   :: EPrint "📌 Adjusting configuration..." :: after)%list).
Proof.
  split.
  - unfold install_from_url.
    do 5 (apply bind_cong; [reflexivity | intros ? ?]).
    apply bind_call_exit. intros _ _ sI. reflexivity.
  - intros s' Hrun. split; [by eapply run_deletes_installer|].
    destruct (run_log _ _ _ _ _ _ Hrun) as (r & _ & _ & ->).
    exists (log s ++ firstn 3 (trace h url prefix env s (body r)))%list,
           (skipn 5 (trace h url prefix env s (body r))).
    rewrite <- app_assoc. reflexivity.
Qed.

Lemma installer_exit_ignored_witness :
  let failing := with_installer_exit (fun _ _ _ => 1%Z) Demo.host in
  let r := install_from_url failing Demo.url "/usr/local" None Demo.state0 in
  r.1 = Ok tt /\
  r = install_from_url Demo.host Demo.url "/usr/local" None Demo.state0 /\
  files (disk r.2) !! "__installer__.sh" = None.
Proof.
  pose proof (installer_exit_ignored Demo.host (fun _ _ _ => 1%Z) Demo.url "/usr/local"
                None Demo.state0) as [E H].
  cbn zeta. split; [vm_compute; reflexivity|]. split; [exact E|].
  rewrite E. refine (proj1 (H _ _)). vm_compute. reflexivity.
Defined.

(** ** A download that fails *)

(** C9. When [urlopen] raises, that exception is what the call raises, as
    it is; nothing has happened but the first progress message: no
    process was started, and the disk (the configuration files and the
    executable with it), [sys.path] and the caller's dictionaries are as
    they were. *)
Theorem download_failure_aborts h url prefix env s e :
  web h url = inl e ->
  let r := install_from_url h url prefix env s in
  r.1 = Raise e /\
  log r.2 = (log s ++ [EPrint ("⏬ Downloading " +:+ url +:+ "...")])%list /\
  (forall argv, ESpawn argv ∈ log r.2 -> ESpawn argv ∈ log s) /\
  disk r.2 = disk s /\ sys_path r.2 = sys_path s /\ heap r.2 = heap s.
Proof.
  intros Hweb r.
  assert (E : r = (Raise e, emit (EPrint ("⏬ Downloading " +:+ url +:+ "...")) s)).
  { unfold r, install_from_url, mbind, M_bind, print, modify, urlopen. by rewrite Hweb. }
  rewrite E. cbn [fst snd]. autorewrite with fields.
  split; [done|]. split; [done|]. split; [|done].
  intros argv [H|H]%elem_of_app; [done|].
  apply list_elem_of_singleton in H. discriminate.
Qed.

Lemma download_failure_aborts_witness :
  install_from_url Demo.host "https://example.org/missing.sh" "/usr/local" None Demo.state0 =
  (Raise (NetworkError "HTTP Error 404: Not Found"),
   emit (EPrint "⏬ Downloading https://example.org/missing.sh...") Demo.state0).
Proof.
  pose proof (download_failure_aborts Demo.host "https://example.org/missing.sh"
                "/usr/local" None Demo.state0
                (NetworkError "HTTP Error 404: Not Found") eq_refl)
    as (H1 & H2 & _ & H3 & H4 & H5).
  destruct (install_from_url _ _ _ _ _) as [res [d p hp l]].
  cbn in *. by subst.
Defined.

(** A download that breaks while it is read stops the run as well, with
    what had been read left in [__installer__.sh]. *)
Lemma download_interrupted h url prefix env s text e :
  web h url = inr (mkStream text (Some e)) ->
  installer_fn ∉ denied h -> installer_fn ∉ dirs (disk s) ->
  install_from_url h url prefix env s =
  (Raise e,
   written installer_fn text
     (set_disk (set_files (opened installer_fn "wb"))
        (emit (EPrint ("⏬ Downloading " +:+ url +:+ "...")) s))).
Proof.
  intros Hweb Hden Hdir.
  unfold install_from_url, mbind at 1 2 3, M_bind, print, modify, urlopen, open_, copyfileobj.
  rewrite Hweb. cbn [disk emit].
  rewrite !bool_decide_eq_false_2 by done. cbn [orb].
  unfold mbind, M_bind, write. cbn [fault body]. reflexivity.
Qed.

(** * The check after the restart *)

Section Check.
Variables (h : Host) (prefix : string) (s : State).

Let sp := site_packages prefix (sys_version_info h).1 (sys_version_info h).2.

Lemma check_unfold :
  check h prefix s =
  if bool_decide (is_Some (find_executable h "conda" (disk s))) then
    if bool_decide (sp ∈ sys_path s) then
      match environ h !! "LD_LIBRARY_PATH" with
      | Some ld =>
          if Str.contains (prefix +:+ "/lib") ld
          then (Ok tt, emit (EPrint "✨🍰✨ Everything looks OK!") s)
          else (Raise (AssertionError ld_library_path_not_patched (Some (VStr ld))), s)
      | None => (Raise (KeyError "LD_LIBRARY_PATH"), s)
      end
    else (Raise (AssertionError pythonpath_not_patched (Some (VList (sys_path s)))), s)
  else (Raise (AssertionError conda_not_found None), s).
Proof.
  unfold check, sp. destruct (sys_version_info h) as [pymaj pymin].
  unfold mbind, M_bind, get, assert, environ_getitem. cbn [fst snd].
  destruct (bool_decide (is_Some _)); [|reflexivity]. cbn.
  destruct (bool_decide (_ ∈ _)); [|reflexivity]. cbn.
  destruct (environ h !! "LD_LIBRARY_PATH") as [ld|]; [|reflexivity]. cbn.
  destruct (Str.contains _ ld); reflexivity.
Qed.

(** All three conditions hold: the check prints its message and returns. *)
Lemma check_passes ld :
  is_Some (find_executable h "conda" (disk s)) ->
  sp ∈ sys_path s ->
  environ h !! "LD_LIBRARY_PATH" = Some ld ->
  Str.contains (prefix +:+ "/lib") ld = true ->
  check h prefix s = (Ok tt, emit (EPrint "✨🍰✨ Everything looks OK!") s).
Proof.
  intros Hc Hp Hld Hin. rewrite check_unfold.
  by rewrite !bool_decide_eq_true_2, Hld, Hin.
Qed.

(** No [conda]: the first assertion fails, whatever the other two
    conditions are. *)
Lemma check_conda_missing :
  find_executable h "conda" (disk s) = None ->
  check h prefix s = (Raise (AssertionError conda_not_found None), s).
Proof.
  intros Hc. rewrite check_unfold, Hc.
  rewrite bool_decide_eq_false_2; [reflexivity | by intros []].
Qed.

(** [conda] is there, the path is not: the second assertion fails,
    whatever [LD_LIBRARY_PATH] is. *)
Lemma check_sys_path_missing :
  is_Some (find_executable h "conda" (disk s)) ->
  sp ∉ sys_path s ->
  check h prefix s =
  (Raise (AssertionError pythonpath_not_patched (Some (VList (sys_path s)))), s).
Proof.
  intros Hc Hp. rewrite check_unfold.
  by rewrite bool_decide_eq_true_2, bool_decide_eq_false_2.
Qed.

(** The first two hold and [LD_LIBRARY_PATH] is set to a value without
    the library directory: the third assertion fails. *)
Lemma check_ld_library_path_missing ld :
  is_Some (find_executable h "conda" (disk s)) ->
  sp ∈ sys_path s ->
  environ h !! "LD_LIBRARY_PATH" = Some ld ->
  Str.contains (prefix +:+ "/lib") ld = false ->
  check h prefix s =
  (Raise (AssertionError ld_library_path_not_patched (Some (VStr ld))), s).
Proof.
  intros Hc Hp Hld Hin. rewrite check_unfold.
  by rewrite !bool_decide_eq_true_2, Hld, Hin.
Qed.

(** The first two hold and [LD_LIBRARY_PATH] is not set at all: reading
    it raises [KeyError] before the third assertion is evaluated. *)
Lemma check_ld_library_path_unset :
  is_Some (find_executable h "conda" (disk s)) ->
  sp ∈ sys_path s ->
  environ h !! "LD_LIBRARY_PATH" = None ->
  check h prefix s = (Raise (KeyError "LD_LIBRARY_PATH"), s).
Proof.
  intros Hc Hp Hld. rewrite check_unfold.
  by rewrite !bool_decide_eq_true_2, Hld.
Qed.

End Check.

(** C8.  The third condition of [check] is not always reported by its
    assertion.  In a kernel where [conda] is found and the site-packages
    directory is on [sys.path], with [LD_LIBRARY_PATH] not set, the
    library directory is not in the variable; the check raises
    [KeyError: 'LD_LIBRARY_PATH'] from reading the variable, not the
    [AssertionError] with the message that says [LD_LIBRARY_PATH] was not
    patched.  With the variable set to a value that lacks the directory,
    the same kernel gets the assertion and its message. *)
Theorem check_unset_variable :
  find_executable Demo.kernel "conda" (disk Demo.restarted) = Some "/usr/local/bin/conda" /\
  site_packages "/usr/local" 3 7 ∈ sys_path Demo.restarted /\
  environ Demo.kernel !! "LD_LIBRARY_PATH" = None /\
  check Demo.kernel "/usr/local" Demo.restarted =
    (Raise (KeyError "LD_LIBRARY_PATH"), Demo.restarted) /\
  (forall text value,
     check Demo.kernel "/usr/local" Demo.restarted <>
     (Raise (AssertionError text value), Demo.restarted)).
Proof.
  assert (E : check Demo.kernel "/usr/local" Demo.restarted =
              (Raise (KeyError "LD_LIBRARY_PATH"), Demo.restarted))
    by (vm_compute; reflexivity).
  split; [vm_compute; reflexivity|]. split; [compute_done|].
  split; [vm_compute; reflexivity|]. split; [exact E|].
  intros text value. rewrite E. discriminate.
Qed.

(** * More of the run *)

(** ** Directories and modes *)

Section DiskFields.
Variables (d : Disk) (p src dst c : string) (q : pathlib.PurePath).
Variables (ff : gmap string string -> gmap string string) (fs : gset string -> gset string).

Lemma dirs_set_files : dirs (set_files ff d) = dirs d. Proof. reflexivity. Qed.
Lemma dirs_set_dirs : dirs (set_dirs fs d) = fs (dirs d). Proof. reflexivity. Qed.
Lemma dirs_set_xbit : dirs (set_xbit fs d) = dirs d. Proof. reflexivity. Qed.
Lemma dirs_unlinked : dirs (unlinked p d) = dirs d. Proof. reflexivity. Qed.
Lemma dirs_renamed : dirs (renamed src dst c d) = dirs d. Proof. reflexivity. Qed.
Lemma dirs_chmodded : dirs (chmodded p d) = dirs d. Proof. reflexivity. Qed.
Lemma dirs_made :
  dirs (made q d) = dirs d ∪ list_to_set (map pathlib.str (pathlib.lineage q)).
Proof. reflexivity. Qed.

End DiskFields.

Create Rewrite HintDb dirs.

#[global] Hint Rewrite disk_emit disk_set_disk disk_set_sys_path disk_set_heap disk_written
  dirs_set_files dirs_set_dirs dirs_set_xbit dirs_unlinked dirs_renamed dirs_chmodded
  dirs_made : dirs.

Lemma dirs_patched h prefix env c s :
  dirs (disk (patched h prefix env c s)) = dirs (disk s).
Proof. reflexivity. Qed.

Lemma dirs_configured h prefix s :
  dirs (disk (configured h prefix s)) =
  dirs (disk s) ∪
  list_to_set (map pathlib.str (pathlib.lineage (pathlib.Path prefix / "conda-meta")%path)).
Proof. reflexivity. Qed.

Lemma lineage_self (q : pathlib.PurePath) :
  pathlib.parts q <> [] -> q ∈ pathlib.lineage q.
Proof.
  intros Hne. unfold pathlib.lineage. apply list_elem_of_fmap.
  exists (pred (length (pathlib.parts q))). split.
  - destruct q as [r ps]. cbn [pathlib.root pathlib.parts] in *.
    destruct ps as [|x ps]; [done|]. cbn [length pred].
    by rewrite take_ge by (cbn; lia).
  - apply list_elem_of_In, in_seq. destruct (pathlib.parts q); [done|]. cbn. lia.
Qed.

(** X1. The directory of the pin file is there after a run. *)
Theorem conda_meta_exists h url prefix env s s' :
  install_from_url h url prefix env s = (Ok tt, s') ->
  pathlib.str (pathlib.Path prefix / "conda-meta")%path ∈ dirs (disk s').
Proof.
  intros (r & c & _ & _ & _ & ->)%install_from_url_Ok.
  rewrite dirs_patched, dirs_configured.
  apply elem_of_union_r, elem_of_list_to_set, list_elem_of_fmap.
  eexists. split; [reflexivity|]. apply lineage_self.
  rewrite truediv_name by reflexivity. cbn. by destruct (pathlib.parts _).
Qed.

Lemma conda_meta_exists_witness :
  "/usr/local/conda-meta" ∈
  dirs (disk (install_from_url Demo.host Demo.url "/usr/local/" None Demo.state0).2).
Proof.
  exact (conda_meta_exists Demo.host Demo.url "/usr/local/" None Demo.state0
           (install_from_url Demo.host Demo.url "/usr/local/" None Demo.state0).2
           ltac:(vm_compute; reflexivity)).
Defined.

Section ModeFields.
Variables (d : Disk) (p src dst c : string) (q : pathlib.PurePath).
Variables (ff : gmap string string -> gmap string string).

Lemma xbit_set_files : xbit (set_files ff d) = xbit d. Proof. reflexivity. Qed.
Lemma xbit_chmodded_file : is_file p d = true -> xbit (chmodded p d) = xbit d ∪ {[p]}.
Proof. intros H. unfold chmodded. cbn. by rewrite H. Qed.

End ModeFields.

(** X2. The shim is marked executable. *)
Theorem shim_is_executable h url prefix env s s' :
  install_from_url h url prefix env s = (Ok tt, s') ->
  sys_executable h ∈ xbit (disk s').
Proof.
  intros (r & c & _ & _ & _ & ->)%install_from_url_Ok.
  unfold patched. autorewrite with fields.
  rewrite xbit_chmodded_file; [set_solver|].
  unfold is_file. autorewrite with fields. by rewrite lookup_appended_eq.
Qed.

Lemma shim_is_executable_witness :
  "/usr/bin/python3" ∈
  xbit (disk (install_from_url Demo.host Demo.url "/usr/local" None Demo.state0).2).
Proof.
  exact (shim_is_executable Demo.host Demo.url "/usr/local" None Demo.state0
           (install_from_url Demo.host Demo.url "/usr/local" None Demo.state0).2
           ltac:(vm_compute; reflexivity)).
Defined.

(** ** What a run leaves alone *)



(** X4. With [env=None], or with an empty mapping, no dictionary of the
    caller is changed: the variables of the shim are kept in a new
    dictionary, which holds the one binding of [LD_LIBRARY_PATH]. *)
Theorem fresh_env_dictionary h url prefix env s s' :
  install_from_url h url prefix env s = (Ok tt, s') ->
  caller_dict env (heap s) = [] ->
  heap s' =
    (heap s ++ [[(LD_LIBRARY_PATH, ld_library_path (normal prefix))]])%list /\
  (forall l d, heap s !! l = Some d -> heap s' !! l = Some d).
Proof.
  intros Hrun Hempty.
  assert (E : heap s' =
    (heap s ++ [[(LD_LIBRARY_PATH, ld_library_path (normal prefix))]])%list).
  { rewrite (run_heap _ _ _ _ _ _ Hrun). unfold rebound, caller_dict in *.
    destruct env as [l|]; [|done].
    destruct (heap s !! l) as [[|kv d]|]; [done | discriminate | done]. }
  split; [exact E|]. intros l d Hl. rewrite E. by apply lookup_app_l_Some.
Qed.

Lemma fresh_env_dictionary_witness :
  heap (install_from_url Demo.host Demo.url "/usr/local" None Demo.state0).2 =
  [ [("FOO", "bar")];
    [("LD_LIBRARY_PATH", Str.dquote +:+ "/usr/local/lib:$LD_LIBRARY_PATH" +:+ Str.dquote)] ].
Proof.
  pose proof (fresh_env_dictionary Demo.host Demo.url "/usr/local" None Demo.state0
                (install_from_url Demo.host Demo.url "/usr/local" None Demo.state0).2
                ltac:(vm_compute; reflexivity) ltac:(reflexivity)) as [H _].
  vm_compute in H. vm_compute. exact H.
Defined.

(** ** The other configuration files *)

Lemma runs_accumulate h url prefix env p text :
  (forall s s', install_from_url h url prefix env s = (Ok tt, s') ->
     files (disk s') !! p = Some (default EmptyString (files (disk s) !! p) +:+ text)) ->
  forall n s s',
    runs (S n) h url prefix env s = (Ok tt, s') ->
    files (disk s') !! p =
    Some (default EmptyString (files (disk s) !! p) +:+ copies (S n) text).
Proof.
  intros Hone n. induction n as [|n IH]; intros s0 s0'.
  - cbn [runs]. intros ([] & s1 & H1 & [_ ->]%ret_Ok)%bind_Ok.
    rewrite (Hone _ _ H1). cbn [copies]. by rewrite str_app_nil_r.
  - intros ([] & s1 & H1 & Hn)%bind_Ok.
    rewrite (IH _ _ Hn), (Hone _ _ H1).
    cbn [default from_option id]. rewrite str_app_assoc. reflexivity.
Qed.

Lemma run_condarc h url prefix env s s' :
  install_from_url h url prefix env s = (Ok tt, s') ->
  sys_executable h <> condarc prefix ->
  installer_keeps h (condarc prefix) ->
  files (disk s') !! condarc prefix =
  Some (default EmptyString (files (disk s) !! condarc prefix) +:+ always_yes).
Proof.
  intros (r & c & _ & _ & _ & ->)%install_from_url_Ok Hexe Hkeep.
  destruct (real_apart h prefix) as [_ (_ & _ & ? & _)%config_paths_ne].
  destruct (pinned_apart prefix) as (? & ? & ?).
  destruct (condarc_apart prefix) as (? & ?).
  rewrite patched_frame, files_configured by done.
  rewrite lookup_appended_ne, lookup_opened_ne by done.
  rewrite lookup_appended_eq, lookup_opened_a. cbn [default from_option id].
  rewrite !lookup_appended_ne, lookup_opened_ne by done.
  rewrite fetched_frame by done. reflexivity.
Qed.

(** X5. Each run appends the line [always_yes: true] to [<prefix>/.condarc]:
    after [N] runs the file holds what it held, then [N] such lines. *)
Theorem condarc_accumulates N h url prefix env s s' :
  1 <= N ->
  runs N h url prefix env s = (Ok tt, s') ->
  sys_executable h <> condarc prefix ->
  installer_keeps h (condarc prefix) ->
  files (disk s') !! condarc prefix =
  Some (default EmptyString (files (disk s) !! condarc prefix)
        +:+ copies N ("always_yes: true" +:+ Str.nl)).
Proof.
  intros HN Hruns Hexe Hkeep. destruct N as [|n]; [lia|].
  apply (runs_accumulate h url prefix env (condarc prefix) always_yes); [|exact Hruns].
  intros s0 s0' H0. exact (run_condarc _ _ _ _ _ _ H0 Hexe Hkeep).
Qed.

Lemma condarc_accumulates_witness :
  files (disk (runs 2 Demo.host Demo.url "/usr/local" None Demo.state0).2)
    !! "/usr/local/.condarc" =
  Some ("always_yes: true" +:+ Str.nl +:+ "always_yes: true" +:+ Str.nl).
Proof.
  pose proof (condarc_accumulates 2 Demo.host Demo.url "/usr/local" None Demo.state0
                (runs 2 Demo.host Demo.url "/usr/local" None Demo.state0).2
                ltac:(lia) ltac:(vm_compute; reflexivity) ltac:(discriminate)
                ltac:(apply stub_keeps; rewrite condarc_last; discriminate)) as H.
  vm_compute in H. vm_compute. exact H.
Defined.

Lemma run_ipython_config h url prefix env s s' :
  install_from_url h url prefix env s = (Ok tt, s') ->
  sys_executable h <> ipython_config ->
  installer_keeps h ipython_config ->
  files (disk s') !! ipython_config =
  Some (default EmptyString (files (disk s) !! ipython_config)
        +:+ exec_lines (normal prefix) (sys_version_info h).1 (sys_version_info h).2).
Proof.
  intros (r & c & _ & _ & _ & ->)%install_from_url_Ok Hexe Hkeep.
  destruct (real_apart h prefix) as [_ (_ & _ & _ & ?)%config_paths_ne].
  destruct (pinned_apart prefix) as (? & ? & ?).
  destruct (condarc_apart prefix) as (? & ?).
  rewrite patched_frame, files_configured by done.
  rewrite lookup_appended_eq, lookup_opened_a. cbn [default from_option id].
  rewrite !lookup_appended_ne, lookup_opened_ne by done.
  rewrite !lookup_appended_ne, lookup_opened_ne by done.
  rewrite fetched_frame by done. reflexivity.
Qed.

Lemma exec_lines_inserts prefix pymaj pymin :
  Str.contains ("sp = f'" +:+ site_packages prefix pymaj pymin +:+ "'")
    (exec_lines prefix pymaj pymin) = true.
Proof.
  unfold exec_lines. do 11 apply contains_app_r.
  set (x := "sp = f'" +:+ site_packages prefix pymaj pymin +:+ "'").
  rewrite <- (str_app_assoc (site_packages prefix pymaj pymin) "'").
  rewrite <- (str_app_assoc "sp = f'" (site_packages prefix pymaj pymin +:+ "'")).
  apply contains_here.
Qed.

(** X6. Each run appends the start-up snippet to the configuration of
    IPython, after what the file held; the directory the snippet puts on
    [sys.path] at each later start is the one the run puts on the
    [sys.path] of the running process. *)
Theorem startup_snippet h url prefix env s s' :
  install_from_url h url prefix env s = (Ok tt, s') ->
  sys_executable h <> "/etc/ipython/ipython_config.py" ->
  installer_keeps h "/etc/ipython/ipython_config.py" ->
  let sp :=
    normal prefix +:+ "/lib/python" +:+ Str.of_N (sys_version_info h).1 +:+ "."
      +:+ Str.of_N (sys_version_info h).2 +:+ "/site-packages" in
  exists snippet,
    files (disk s') !! "/etc/ipython/ipython_config.py" =
      Some (default EmptyString (files (disk s) !! "/etc/ipython/ipython_config.py")
            +:+ snippet) /\
    Str.contains ("sp = f'" +:+ sp +:+ "'") snippet = true /\
    Str.contains "sys.path.insert(0, sp)" snippet = true /\
    sp ∈ sys_path s'.
Proof.
  intros Hrun Hexe Hkeep sp.
  exists (exec_lines (normal prefix) (sys_version_info h).1 (sys_version_info h).2).
  split; [exact (run_ipython_config _ _ _ _ _ _ Hrun Hexe Hkeep)|].
  split; [apply exec_lines_inserts|]. split.
  - unfold exec_lines. do 25 apply contains_app_r.
    exact (contains_app "sys.path.insert(0, sp)" "    " _).
  - rewrite (run_sys_path _ _ _ _ _ _ Hrun). cbn zeta.
    case_bool_decide; [done | apply elem_of_cons; by left].
Qed.

Lemma startup_snippet_witness :
  exists snippet,
    files (disk (install_from_url Demo.host Demo.url "/usr/local" None Demo.state0).2)
      !! "/etc/ipython/ipython_config.py" = Some snippet /\
    Str.contains "sp = f'/usr/local/lib/python3.7/site-packages'" snippet = true.
Proof.
  destruct (startup_snippet Demo.host Demo.url "/usr/local" None Demo.state0
              (install_from_url Demo.host Demo.url "/usr/local" None Demo.state0).2
              ltac:(vm_compute; reflexivity) ltac:(discriminate)
              ltac:(apply stub_keeps; discriminate))
    as (snippet & Hfile & Hsp & _ & _).
  exists snippet. split; [exact Hfile | exact Hsp].
Defined.

(** * More of the check *)

(** X7. [check] reports the first condition that fails and looks no
    further: without [conda] it raises the first assertion, whatever
    [sys.path] and [LD_LIBRARY_PATH] are; with [conda] and without the
    directory on [sys.path] it raises the second, with [sys.path] as the
    value of the message, whether [LD_LIBRARY_PATH] is set or not; the
    three messages differ. *)
Theorem check_reports_first_failure h prefix s :
  let sp := site_packages prefix (sys_version_info h).1 (sys_version_info h).2 in
  (find_executable h "conda" (disk s) = None ->
     check h prefix s = (Raise (AssertionError "💥💔💥 Conda not found!" None), s)) /\
  (is_Some (find_executable h "conda" (disk s)) -> sp ∉ sys_path s ->
     check h prefix s =
     (Raise (AssertionError "💥💔💥 PYTHONPATH was not patched! Value: "
               (Some (VList (sys_path s)))), s)) /\
  (forall ld, is_Some (find_executable h "conda" (disk s)) -> sp ∈ sys_path s ->
     environ h !! "LD_LIBRARY_PATH" = Some ld ->
     Str.contains (prefix +:+ "/lib") ld = false ->
     check h prefix s =
     (Raise (AssertionError "💥💔💥 LD_LIBRARY_PATH was not patched! Value: "
               (Some (VStr ld))), s)) /\
  conda_not_found <> pythonpath_not_patched /\
  conda_not_found <> ld_library_path_not_patched /\
  pythonpath_not_patched <> ld_library_path_not_patched.
Proof.
  intros sp. split; [apply check_conda_missing|].
  split; [apply check_sys_path_missing|].
  split; [intros ld; apply check_ld_library_path_missing|].
  repeat split; discriminate.
Qed.

Lemma check_reports_first_failure_witness :
  check Demo.host "/usr/local" Demo.state0 =
  (Raise (AssertionError "💥💔💥 Conda not found!" None), Demo.state0).
Proof.
  exact (proj1 (check_reports_first_failure Demo.host "/usr/local" Demo.state0)
           ltac:(vm_compute; reflexivity)).
Defined.

(** X8. [check] changes nothing: the disk, [sys.path] and the caller's
    dictionaries are after it what they were; when it raises the state
    is the one it started in, and when it returns the only effect is its
    one message. *)
Theorem check_read_only h prefix s :
  let r := check h prefix s in
  disk r.2 = disk s /\ sys_path r.2 = sys_path s /\ heap r.2 = heap s /\
  (forall e, r.1 = Raise e -> r.2 = s) /\
  (r.1 = Ok tt -> log r.2 = (log s ++ [EPrint "✨🍰✨ Everything looks OK!"])%list).
Proof.
  cbn zeta. rewrite check_unfold.
  repeat match goal with
  | |- context [if ?b then _ else _] => destruct b
  | |- context [match ?o with Some _ => _ | None => _ end] => destruct o
  end; cbn [fst snd]; autorewrite with fields;
    repeat split; try done; intros; discriminate.
Qed.

Lemma check_read_only_witness :
  disk (check Demo.host "/usr/local" Demo.state0).2 = disk Demo.state0.
Proof. exact (proj1 (check_read_only Demo.host "/usr/local" Demo.state0)). Defined.

(** X9. [check] returns exactly when [conda] is found, the site-packages
    directory of the prefix is on [sys.path], and [LD_LIBRARY_PATH] is
    set and contains the library directory of the prefix as a substring:
    in every other case it raises. *)
Theorem check_returns_iff h prefix s :
  let sp := site_packages prefix (sys_version_info h).1 (sys_version_info h).2 in
  (check h prefix s).1 = Ok tt <->
  is_Some (find_executable h "conda" (disk s)) /\ sp ∈ sys_path s /\
  exists ld, environ h !! "LD_LIBRARY_PATH" = Some ld /\
             Str.contains (prefix +:+ "/lib") ld = true.
Proof.
  cbn zeta. rewrite check_unfold.
  case_bool_decide as Hc; [|split; [discriminate | by intros [? _]]].
  case_bool_decide as Hp; [|split; [discriminate | by intros (_ & ? & _)]].
  destruct (environ h !! "LD_LIBRARY_PATH") as [ld|];
    [|split; [discriminate | by intros (_ & _ & ? & [=] & _)]].
  destruct (Str.contains _ ld) eqn:E.
  - split; [eauto 6 | done].
  - split; [discriminate|]. intros (_ & _ & ld' & [= <-] & E'). congruence.
Qed.

Lemma check_returns_iff_witness :
  (check Scenario.patched_kernel "/usr/local" Demo.restarted).1 = Ok tt.
Proof.
  apply (proj2 (check_returns_iff Scenario.patched_kernel "/usr/local" Demo.restarted)).
  split; [vm_compute; eauto|]. split; [compute_done|].
  exists "/usr/local/lib:/usr/lib64-nvidia". split; vm_compute; reflexivity.
Defined.

(** ** The check after an installation *)

Lemma str_length_app (a b : string) :
  String.length (a +:+ b) = String.length a + String.length b.
Proof. induction a as [|x a IH]; [done|]. rewrite str_app_cons. cbn. by rewrite IH. Qed.

Lemma str_app_inv_tail (a b c : string) : a +:+ c = b +:+ c -> a = b.
Proof.
  revert b. induction a as [|x a IH]; intros [|y b] E.
  - reflexivity.
  - apply (f_equal String.length) in E. rewrite !str_length_app in E. cbn in E. lia.
  - apply (f_equal String.length) in E. rewrite !str_length_app in E. cbn in E. lia.
  - rewrite !str_app_cons in E. injection E as -> E. f_equal. by apply IH.
Qed.

Lemma site_packages_inj p q pymaj pymin :
  site_packages p pymaj pymin = site_packages q pymaj pymin -> p = q.
Proof. apply str_app_inv_tail. Qed.

(** X10. [check] after [install_from_url], in the same process and with a
    prefix that is written the way [pathlib] writes it: the directory
    [check] looks for on [sys.path] is the one the installation put
    there, and the second assertion of [check] does not fail. *)
Theorem check_after_install h url prefix env s s' :
  install_from_url h url prefix env s = (Ok tt, s') ->
  pathlib.str (pathlib.Path prefix) = prefix ->
  site_packages prefix (sys_version_info h).1 (sys_version_info h).2 ∈ sys_path s' /\
  (forall value,
     check h prefix s' <> (Raise (AssertionError pythonpath_not_patched value), s')).
Proof.
  intros Hrun Hnormal.
  assert (Hin : site_packages prefix (sys_version_info h).1 (sys_version_info h).2
                ∈ sys_path s').
  { rewrite (run_sys_path _ _ _ _ _ _ Hrun). cbn zeta. unfold normal. rewrite Hnormal.
    case_bool_decide; [done | apply elem_of_cons; by left]. }
  split; [exact Hin|]. intros value. rewrite check_unfold.
  rewrite (bool_decide_eq_true_2 _ Hin).
  repeat match goal with
  | |- context [if ?b then _ else _] => destruct b
  | |- context [match ?o with Some _ => _ | None => _ end] => destruct o
  end; discriminate.
Qed.

Lemma check_after_install_witness :
  "/usr/local/lib/python3.7/site-packages" ∈
  sys_path (install_from_url Demo.host Demo.url "/usr/local" None Demo.state0).2.
Proof.
  exact (proj1 (check_after_install Demo.host Demo.url "/usr/local" None Demo.state0
                  (install_from_url Demo.host Demo.url "/usr/local" None Demo.state0).2
                  ltac:(vm_compute; reflexivity) ltac:(vm_compute; reflexivity))).
Defined.

(** X11. [install_from_url] normalises its prefix and [check] does not.
    With a prefix that [pathlib] writes otherwise (a trailing slash, a
    doubled slash, a [.] component), the directory [check] looks for is
    not the one the installation put on [sys.path]: unless it was there
    before, [check] with that same prefix raises the second assertion
    after a successful installation. *)
Theorem check_misses_unnormalised_prefix h url prefix env s s' :
  install_from_url h url prefix env s = (Ok tt, s') ->
  pathlib.str (pathlib.Path prefix) <> prefix ->
  site_packages prefix (sys_version_info h).1 (sys_version_info h).2 ∉ sys_path s ->
  is_Some (find_executable h "conda" (disk s')) ->
  check h prefix s' =
  (Raise (AssertionError "💥💔💥 PYTHONPATH was not patched! Value: "
            (Some (VList (sys_path s')))), s').
Proof.
  intros Hrun Hnormal Hbefore Hconda.
  apply check_sys_path_missing; [exact Hconda|].
  rewrite (run_sys_path _ _ _ _ _ _ Hrun). cbn zeta.
  case_bool_decide; [exact Hbefore|].
  apply not_elem_of_cons. split; [|exact Hbefore].
  intros E%site_packages_inj. by symmetry in E.
Qed.

Lemma check_misses_unnormalised_prefix_witness :
  let s' := (install_from_url Scenario.colab Demo.url "/usr/local/" None Demo.state0).2 in
  sys_path s' = ["/usr/local/lib/python3.7/site-packages"; "/content"; "/usr/lib/python3.7"] /\
  check Scenario.colab "/usr/local/" s' =
  (Raise (AssertionError "💥💔💥 PYTHONPATH was not patched! Value: "
            (Some (VList (sys_path s')))), s').
Proof.
  cbn zeta. split; [vm_compute; reflexivity|].
  exact (check_misses_unnormalised_prefix Scenario.colab Demo.url "/usr/local/" None
           Demo.state0
           (install_from_url Scenario.colab Demo.url "/usr/local/" None Demo.state0).2
           ltac:(vm_compute; reflexivity) ltac:(vm_compute; discriminate)
           ltac:(compute_done) ltac:(vm_compute; eauto)).
Defined.

(** ** The accelerator version, for every value of the variable *)

Lemma split_nonempty c v : Str.split c v <> [].
Proof.
  destruct v as [|a r]; [done|]. cbn [Str.split].
  destruct (Ascii.eqb a c); [done|]. by destruct (Str.split c r).
Qed.

Lemma split_clean c v : Forall (fun x => Str.has_char c x = false) (Str.split c v).
Proof.
  induction v as [|a r IH]; cbn [Str.split]; [by repeat constructor|].
  destruct (Ascii.eqb a c) eqn:E; [by constructor|].
  destruct (Str.split c r) as [|x l]; [by repeat constructor; cbn; rewrite E|].
  inversion IH as [|? ? Hx Hl]; subst. constructor; [|done]. cbn. by rewrite E, Hx.
Qed.

Lemma join_cons sep a x l :
  Str.join sep (String a x :: l) = String a (Str.join sep (x :: l)).
Proof. by destruct l. Qed.

Lemma join_split c v : Str.join (String c EmptyString) (Str.split c v) = v.
Proof.
  induction v as [|a r IH]; [reflexivity|]. cbn [Str.split].
  destruct (Ascii.eqb a c) eqn:E.
  - apply Ascii.eqb_eq in E as ->.
    destruct (Str.split c r) as [|x l] eqn:Hs; [by apply split_nonempty in Hs|].
    change (Str.join (String c EmptyString) (EmptyString :: x :: l))
      with (String c (Str.join (String c EmptyString) (x :: l))).
    by rewrite IH.
  - destruct (Str.split c r) as [|x l] eqn:Hs; [by apply split_nonempty in Hs|].
    by rewrite join_cons, IH.
Qed.

Lemma split_join c l :
  l <> [] -> Forall (fun x => Str.has_char c x = false) l ->
  Str.split c (Str.join (String c EmptyString) l) = l.
Proof.
  induction l as [|x l IH]; [done|]. intros _ Hall.
  inversion Hall as [|? ? Hx Hl]; subst. destruct l as [|y l].
  - by apply split_nochar.
  - change (Str.join (String c EmptyString) (x :: y :: l))
      with (x +:+ String c (Str.join (String c EmptyString) (y :: l))).
    rewrite split_field by done. by rewrite IH.
Qed.

(** X12. Whatever [CUDA_VERSION] holds, the version pinned is made of its
    first two dot-separated fields, or of all of it when it has fewer: it
    is a prefix of the value, it has the fields the value starts with,
    and a value without a dot is taken whole. *)
Theorem cuda_version_truncates h v :
  environ h !! "CUDA_VERSION" = Some v ->
  Str.split "." (cuda_version h) = take 2 (Str.split "." v) /\
  String.prefix (cuda_version h) v = true /\
  (Str.has_char "." v = false -> cuda_version h = v).
Proof.
  intros Henv. unfold cuda_version, environ_get. rewrite Henv.
  cbn [default from_option id].
  pose proof (split_nonempty "." v) as Hne.
  pose proof (split_clean "." v) as Hclean.
  pose proof (join_split "." v) as Hjoin.
  destruct (Str.split "." v) as [|x [|y l]]; [done| |].
  - cbn [take Str.join] in *. subst v. split; [by apply split_nochar; inversion Hclean|].
    split; [|done]. rewrite <- (str_app_nil_r x) at 2. apply prefix_app.
  - rewrite <- Hjoin. clear Hjoin Henv Hne.
    inversion Hclean as [|? ? Hx Hl]; subst. inversion Hl as [|? ? Hy Hl']; subst.
    change (take 2 (x :: y :: l)) with [x; y].
    change (Str.join "." [x; y]) with (x +:+ "." +:+ y).
    change (Str.join "." (x :: y :: l)) with (x +:+ "." +:+ Str.join "." (y :: l)).
    split; [|split].
    + apply (split_join "." [x; y]); [done|]. by repeat constructor.
    + destruct l as [|z l].
      * change (Str.join "." [y]) with y.
        rewrite <- (str_app_nil_r (x +:+ "." +:+ y)) at 2. apply prefix_app.
      * change (Str.join "." (y :: z :: l)) with (y +:+ "." +:+ Str.join "." (z :: l)).
        generalize ("." +:+ Str.join "." (z :: l)). intros t.
        rewrite <- (str_app_assoc "." y t), <- (str_app_assoc x ("." +:+ y) t).
        apply prefix_app.
    + intros Hv. exfalso. clear -Hv.
      change (x +:+ "." +:+ Str.join "." (y :: l))
        with (x +:+ String "." (Str.join "." (y :: l))) in Hv.
      induction x as [|a x IH].
      * cbn in Hv. discriminate.
      * rewrite str_app_cons in Hv. cbn [Str.has_char] in Hv.
        apply orb_false_iff in Hv as [_ Hv]. auto.
Qed.

Lemma cuda_version_truncates_witness :
  Str.split "." (cuda_version Demo.host) = ["11"; "2"].
Proof.
  exact (proj1 (cuda_version_truncates Demo.host "11.2.152" ltac:(vm_compute; reflexivity))).
Defined.

(** * Runs that raise *)

(** ** What each step adds to the trace, raising or not *)

Lemma bind_inv {A B} (m : M A) (k : A -> M B) s r s' :
  (m ≫= k) s = (r, s') ->
  (exists e, m s = (Raise e, s') /\ r = Raise e) \/
  (exists a s1, m s = (Ok a, s1) /\ k a s1 = (r, s')).
Proof.
  unfold mbind, M_bind. destruct (m s) as [[a|e] s1].
  - right. eauto.
  - intros [= <- <-]. left. eauto.
Qed.

Section StepLogs.
Variables (h : Host) (s s' : State).

Lemma modify_noraise f e : modify f s = (Raise e, s') -> False.
Proof. discriminate. Qed.
Lemma print_noraise l e : print l s = (Raise e, s') -> False.
Proof. discriminate. Qed.
Lemma write_noraise f text e : write f text s = (Raise e, s') -> False.
Proof. discriminate. Qed.
Lemma get_noraise e : get s = (Raise e, s') -> False.
Proof. discriminate. Qed.
Lemma do_shutdown_noraise b e : do_shutdown b s = (Raise e, s') -> False.
Proof. discriminate. Qed.
Lemma guard_insert_noraise (b : bool) x e :
  (if b then mret tt else sys_path_insert0 x) s = (Raise e, s') -> False.
Proof. destruct b; discriminate. Qed.
Lemma call_noraise argv e : call h argv s = (Raise e, s') -> False.
Proof.
  unfold call. repeat match goal with
  | |- context [match ?x with _ => _ end] => destruct x
  end; discriminate.
Qed.

Lemma urlopen_Raise url e : urlopen h url s = (Raise e, s') -> web h url = inl e /\ s' = s.
Proof. unfold urlopen. destruct (web h url); [|discriminate]. by intros [= <- <-]. Qed.

Lemma open_Raise p mode e :
  open_ h p mode s = (Raise e, s') ->
  (p ∈ denied h \/ p ∈ dirs (disk s)) /\ e = OSError p /\ s' = s.
Proof.
  unfold open_. destruct (_ || _) eqn:E; [|discriminate]. intros [= <- <-].
  split; [|done]. apply orb_true_iff in E as [E|E]; apply bool_decide_eq_true in E; auto.
Qed.

Lemma copyfileobj_Raise r out e :
  copyfileobj r out s = (Raise e, s') ->
  fault r = Some e /\ s' = written out (body r) s.
Proof.
  unfold copyfileobj. intros [(e0 & H & _)|(a & s1 & ->%write_Ok & H)]%bind_inv.
  - discriminate.
  - destruct (fault r); [|discriminate]. by injection H as <- <-.
Qed.

Lemma os_unlink_Raise p e :
  os_unlink p s = (Raise e, s') -> is_file p (disk s) = false /\ e = OSError p /\ s' = s.
Proof. unfold os_unlink. destruct (is_file p (disk s)); [discriminate|]. by intros [= <- <-]. Qed.

Lemma os_rename_Raise src dst e :
  os_rename src dst s = (Raise e, s') ->
  (files (disk s) !! src = None /\ e = OSError src \/
   dst ∈ dirs (disk s) /\ e = OSError dst) /\ s' = s.
Proof.
  unfold os_rename. destruct (files (disk s) !! src) as [c|].
  - case_bool_decide; [|discriminate]. intros [= <- <-]. auto.
  - intros [= <- <-]. auto.
Qed.

Lemma mkdir_Raise p e : mkdir h p s = (Raise e, s') -> s' = s.
Proof.
  unfold mkdir. repeat (destruct (List.find _ _); [by intros [= _ <-]|]). discriminate.
Qed.

Lemma deref_Raise l e : deref l s = (Raise e, s') -> heap s !! l = None /\ s' = s.
Proof. unfold deref. destruct (heap s !! l); [discriminate|]. by intros [= _ <-]. Qed.

Lemma or_new_dict_Raise env e :
  or_new_dict env s = (Raise e, s') ->
  (exists l, env = Some l /\ heap s !! l = None) /\ s' = s.
Proof.
  unfold or_new_dict, new_dict. destruct env as [l|]; [|discriminate].
  intros [(e0 & [Hl ->]%deref_Raise & _)|(d & s1 & [_ ->]%deref_Ok & H)]%bind_inv.
  - eauto.
  - destruct d; discriminate.
Qed.

Lemma or_new_dict_log env l (s1 : State) :
  or_new_dict env s = (Ok l, s1) -> log s1 = log s /\ is_Some (heap s1 !! l).
Proof.
  unfold or_new_dict, new_dict. destruct env as [l0|].
  - intros (d & s0 & [Hd ->]%deref_Ok & H)%bind_Ok. destruct d.
    + injection H as <- <-. split; [done|]. cbn. rewrite lookup_app_r, Nat.sub_diag; eauto.
    + apply ret_Ok in H as [-> ->]. eauto.
  - intros [= <- <-]. split; [done|]. cbn. rewrite lookup_app_r, Nat.sub_diag; eauto.
Qed.

Lemma dict_setitem_noraise l k v e :
  is_Some (heap s !! l) -> dict_setitem l k v s = (Raise e, s') -> False.
Proof.
  intros [d Hd]. unfold dict_setitem, mbind, M_bind, deref. rewrite Hd. discriminate.
Qed.

Lemma dict_setitem_Ok l k v a (s1 : State) :
  dict_setitem l k v s = (Ok a, s1) ->
  exists d, heap s !! l = Some d /\
    s1 = set_heap (fun hp => <[l := dict_set k v d]> hp) s.
Proof.
  unfold dict_setitem. intros (d & s0 & [Hd ->]%deref_Ok & ->%modify_Ok)%bind_Ok. eauto.
Qed.

Lemma dict_setitem_log l k v a (s1 : State) :
  dict_setitem l k v s = (Ok a, s1) -> log s1 = log s /\ is_Some (heap s1 !! l).
Proof.
  intros (d & Hd & ->)%dict_setitem_Ok. split; [done|]. cbn.
  rewrite list_lookup_insert_eq; [eauto | by eapply lookup_lt_Some].
Qed.

End StepLogs.

(** Each step adds the same events to the trace whether it raises or
    not. *)
Section StepTrace.
Context {A : Type}.
Variables (h : Host) (s s' : State) (r : Result A).

Lemma nil_log (m : M A) :
  (forall e, m s = (Raise e, s') -> s' = s) ->
  (forall a, m s = (Ok a, s') -> log s' = log s) ->
  m s = (r, s') -> log s' = (log s ++ [])%list.
Proof.
  intros Hr Ho H. rewrite app_nil_r. destruct r as [a|e]; [by eapply Ho|].
  by rewrite (Hr _ H).
Qed.

End StepTrace.

Section StepTraces.
Variables (h : Host) (s s' : State).

Lemma print_log l r : print l s = (r, s') -> log s' = (log s ++ [EPrint l])%list.
Proof. by intros [= _ <-]. Qed.
Lemma do_shutdown_log b r :
  do_shutdown b s = (r, s') -> log s' = (log s ++ [EShutdown b])%list.
Proof. by intros [= _ <-]. Qed.
Lemma write_log f text r :
  write f text s = (r, s') -> log s' = (log s ++ [EWrite f text])%list.
Proof. by intros [= _ <-]. Qed.
Lemma get_log r : get s = (r, s') -> log s' = (log s ++ [])%list.
Proof. intros [= _ <-]. by rewrite app_nil_r. Qed.
Lemma guard_insert_log (b : bool) x r :
  (if b then mret tt else sys_path_insert0 x) s = (r, s') -> log s' = (log s ++ [])%list.
Proof. rewrite app_nil_r. destruct b; by intros [= _ <-]. Qed.
Lemma urlopen_log url r : urlopen h url s = (r, s') -> log s' = (log s ++ [])%list.
Proof.
  apply nil_log; [by intros e [_ ->]%urlopen_Raise | by intros a [_ ->]%urlopen_Ok].
Qed.
Lemma open_log p mode r : open_ h p mode s = (r, s') -> log s' = (log s ++ [])%list.
Proof.
  apply nil_log; [by intros e (_ & _ & ->)%open_Raise | by intros a [_ ->]%open_Ok].
Qed.
Lemma copyfileobj_log st out r :
  copyfileobj st out s = (r, s') -> log s' = (log s ++ [EWrite out (body st)])%list.
Proof.
  destruct r as [a|e]; [by intros [_ ->]%copyfileobj_Ok | by intros [_ ->]%copyfileobj_Raise].
Qed.
Lemma call_log argv r : call h argv s = (r, s') -> log s' = (log s ++ [ESpawn argv])%list.
Proof.
  unfold call. repeat match goal with
  | |- context [match ?x with _ => _ end] => destruct x
  end; by intros [= _ <-].
Qed.
Lemma os_unlink_log p r : os_unlink p s = (r, s') -> log s' = (log s ++ [])%list.
Proof.
  apply nil_log; [by intros e (_ & _ & ->)%os_unlink_Raise | by intros a ->%os_unlink_Ok].
Qed.
Lemma mkdir_log p r : mkdir h p s = (r, s') -> log s' = (log s ++ [])%list.
Proof. apply nil_log; [by intros e ->%mkdir_Raise | by intros a ->%mkdir_Ok]. Qed.
Lemma os_rename_log src dst r :
  os_rename src dst s = (r, s') -> log s' = (log s ++ [])%list.
Proof.
  apply nil_log; [by intros e [_ ->]%os_rename_Raise|].
  by intros a (c & _ & ->)%os_rename_Ok.
Qed.
Lemma deref_log l r : deref l s = (r, s') -> log s' = (log s ++ [])%list.
Proof. apply nil_log; [by intros e [_ ->]%deref_Raise | by intros a [_ ->]%deref_Ok]. Qed.
Lemma or_new_dict_anylog env r :
  or_new_dict env s = (r, s') -> log s' = (log s ++ [])%list.
Proof.
  apply nil_log; [by intros e [_ ->]%or_new_dict_Raise|].
  by intros a [? _]%or_new_dict_log.
Qed.
Lemma dict_setitem_anylog l k v r :
  dict_setitem l k v s = (r, s') -> log s' = (log s ++ [])%list.
Proof.
  apply nil_log; [|by intros a [? _]%dict_setitem_log].
  unfold dict_setitem. intros e [(e0 & [_ ->]%deref_Raise & _)|(d & s1 & _ & H)]%bind_inv;
    [done | discriminate].
Qed.

End StepTraces.

Ltac log_of Hm :=
  first [ apply print_log in Hm | apply urlopen_log in Hm | apply open_log in Hm
        | apply copyfileobj_log in Hm | apply call_log in Hm | apply os_unlink_log in Hm
        | apply mkdir_log in Hm | apply write_log in Hm | apply get_log in Hm
        | apply guard_insert_log in Hm | apply or_new_dict_anylog in Hm
        | apply dict_setitem_anylog in Hm | apply os_rename_log in Hm
        | apply deref_log in Hm | apply do_shutdown_log in Hm ].

Ltac no_raise Hm :=
  first [ apply print_noraise in Hm | apply write_noraise in Hm | apply get_noraise in Hm
        | apply guard_insert_noraise in Hm | apply call_noraise in Hm
        | apply do_shutdown_noraise in Hm ].

(** [Hlog : log cur = log s ++ acc] is the trace so far; [Hm] is the step
    from [cur]. *)
Ltac extend Hm Hlog :=
  log_of Hm; rewrite Hlog in Hm; rewrite <- app_assoc in Hm; cbn [app] in Hm.

Ltac find_n Hv text k :=
  lazymatch k with
  | 13 => fail "no prefix of the trace"
  | _ => first [ (exists k, text; split; [lia | unfold trace; rewrite Hv; reflexivity])
             | let k' := constr:(S k) in find_n Hv text k' ]
  end.

Ltac close_raise Hm Hlog Hv :=
  first [ exfalso; no_raise Hm; exact Hm
        | extend Hm Hlog; rewrite Hm;
          lazymatch goal with
          | st : stream |- _ => find_n Hv (body st) 0
          | _ => find_n Hv EmptyString 0
          end ].

Ltac step H Hlog Hv :=
  let Hm := fresh "Hm" in
  apply bind_inv in H as [(? & Hm & _)|(? & ? & Hm & H)];
  [ close_raise Hm Hlog Hv
  | try (destruct (open_Ok _ _ _ _ _ _ Hm) as [-> _]);
    extend Hm Hlog; clear Hlog; rename Hm into Hlog ].

Lemma run_raise_trace h url prefix env s e s' :
  install_from_url h url prefix env s = (Raise e, s') ->
  exists n text, n <= 12 /\
    log s' = (log s ++ take n (trace h url prefix env s text))%list.
Proof.
  intros H. unfold install_from_url in H.
  destruct (sys_version_info h) as [pymaj pymin] eqn:Hv.
  assert (Hlog : log s = (log s ++ [])%list) by (by rewrite app_nil_r).
  do 28 (step H Hlog Hv).
  exfalso. by apply do_shutdown_noraise in H.
Qed.

Lemma run_trace_prefix h url prefix env s r s' :
  install_from_url h url prefix env s = (r, s') ->
  exists n text,
    log s' = (log s ++ take n (trace h url prefix env s text))%list /\
    (r = Ok tt -> n = 16) /\ (forall e, r = Raise e -> n <= 12).
Proof.
  intros H. destruct r as [[]|e].
  - destruct (run_log _ _ _ _ _ _ H) as (st & _ & _ & Hlog).
    exists 16, (body st). split; [exact Hlog|]. split; [done | discriminate].
  - destruct (run_raise_trace _ _ _ _ _ _ _ H) as (n & text & Hn & Hlog).
    exists n, text. split; [exact Hlog|]. split; [discriminate|]. by intros e0 _.
Qed.



(** X14. The restart of the kernel is asked for only by a run in which no
    step has raised, and then once, as the last thing the run does; a run
    that raises leaves the kernel running. *)
Theorem restart_only_on_success h url prefix env s r s' :
  install_from_url h url prefix env s = (r, s') ->
  exists l,
    log s' = (log s ++ l)%list /\
    (forall b, EShutdown b ∈ l <-> b = true /\ r = Ok tt) /\
    (r = Ok tt -> exists l0, l = (l0 ++ [EShutdown true])%list /\
                   forall b, EShutdown b ∉ l0).
Proof.
  intros (n & text & Hlog & Hok & Hraise)%run_trace_prefix.
  exists (take n (trace h url prefix env s text)). split; [exact Hlog|].
  assert (Hfirst : forall b k, k <= 15 ->
            EShutdown b ∉ take k (trace h url prefix env s text)).
  { intros b k Hk (i & Hi & Hlt)%elem_of_take. unfold trace in Hi.
    do 15 (destruct i as [|i]; [discriminate Hi|]). lia. }
  split.
  - intros b. destruct r as [[]|e].
    + rewrite (Hok eq_refl). change (take 16 (trace h url prefix env s text))
        with (take 15 (trace h url prefix env s text) ++ [EShutdown true])%list.
      rewrite elem_of_app, list_elem_of_singleton. split.
      * intros [Hin|[= ->]]; [by apply Hfirst in Hin | done].
      * intros [-> _]. by right.
    + split; [|by intros [_ [=]]]. intros Hin. exfalso.
      apply (Hfirst b n); [|done]. specialize (Hraise e eq_refl). lia.
  - intros Hr. rewrite (Hok Hr). exists (take 15 (trace h url prefix env s text)).
    split; [reflexivity|]. intros b. by apply Hfirst.
Qed.

Lemma restart_only_on_success_witness :
  exists l,
    log (install_from_url Scenario.locked Demo.url "/usr/local" None Demo.state0).2
      = (log Demo.state0 ++ l)%list /\
    (forall b, EShutdown b ∈ l <->
       b = true /\
       (install_from_url Scenario.locked Demo.url "/usr/local" None Demo.state0).1 = Ok tt) /\
    ((install_from_url Scenario.locked Demo.url "/usr/local" None Demo.state0).1 = Ok tt ->
     exists l0, l = (l0 ++ [EShutdown true])%list /\ forall b, EShutdown b ∉ l0).
Proof.
  apply (restart_only_on_success Scenario.locked Demo.url "/usr/local" None Demo.state0).
  vm_compute. reflexivity.
Defined.

(** ** The address of the installer

    Everything after the first message goes the same way whatever has
    been logged before. *)

Lemma same_but_log_refl s : same_but_log s s.
Proof. done. Qed.

Lemma lockstep_bind {A B} (R : A -> A -> Prop) (Q : B -> B -> Prop)
    (m1 m2 : M A) (k1 k2 : A -> M B) :
  lockstep R m1 m2 -> (forall a b, R a b -> lockstep Q (k1 a) (k2 b)) ->
  lockstep Q (m1 ≫= k1) (m2 ≫= k2).
Proof.
  intros Hm Hk s1 s2 Hs. destruct (Hm s1 s2 Hs) as (l & Hs' & Hl1 & Hl2 & Hr).
  unfold mbind, M_bind.
  destruct (m1 s1) as [[a|e1] s1'], (m2 s2) as [[b|e2] s2']; cbn in *; try done.
  - destruct (Hk a b Hr s1' s2' Hs') as (l' & Hs'' & Hl1' & Hl2' & Hr').
    exists (l ++ l')%list. rewrite !app_assoc, <- Hl1, <- Hl2. done.
  - exists l. done.
Qed.

Ltac two_states :=
  intros [d1 p1 h1 l1] [d2 p2 h2 l2] (Hd & Hp & Hh); cbn in Hd, Hp, Hh; subst.

Section Lockstep.
Variable h : Host.

Lemma lockstep_ret {A} (a : A) : lockstep eq (mret a : M A) (mret a).
Proof. two_states. exists []. by rewrite !app_nil_r. Qed.

Lemma lockstep_raise {A} e : lockstep eq (raise e : M A) (raise e).
Proof. two_states. exists []. by rewrite !app_nil_r. Qed.

Lemma lockstep_print l : lockstep eq (print l) (print l).
Proof. two_states. by exists [EPrint l]. Qed.

Lemma lockstep_do_shutdown b : lockstep eq (do_shutdown b) (do_shutdown b).
Proof. two_states. by exists [EShutdown b]. Qed.

Lemma lockstep_write f text : lockstep eq (write f text) (write f text).
Proof. two_states. by exists [EWrite f text]. Qed.

Lemma lockstep_get : lockstep same_but_log get get.
Proof. two_states. exists []. by rewrite !app_nil_r. Qed.

Lemma lockstep_urlopen u v : web h u = web h v -> lockstep eq (urlopen h u) (urlopen h v).
Proof.
  intros Huv. two_states. exists []. rewrite !app_nil_r. unfold urlopen.
  rewrite Huv. by destruct (web h v).
Qed.

Lemma lockstep_open p mode : lockstep eq (open_ h p mode) (open_ h p mode).
Proof.
  two_states. exists []. rewrite !app_nil_r. unfold open_. cbn.
  by destruct (_ || _).
Qed.

Lemma lockstep_copyfileobj r out : lockstep eq (copyfileobj r out) (copyfileobj r out).
Proof.
  unfold copyfileobj. eapply lockstep_bind; [apply lockstep_write|]. intros _ _ _.
  destruct (fault r); [apply lockstep_raise | apply lockstep_ret].
Qed.

Lemma lockstep_os_unlink p : lockstep eq (os_unlink p) (os_unlink p).
Proof.
  two_states. exists []. rewrite !app_nil_r. unfold os_unlink. cbn.
  by destruct (is_file p d2).
Qed.

Lemma lockstep_os_rename src dst : lockstep eq (os_rename src dst) (os_rename src dst).
Proof.
  two_states. exists []. rewrite !app_nil_r. unfold os_rename. cbn.
  destruct (files d2 !! src); [|done]. by case_bool_decide.
Qed.

Lemma lockstep_mkdir p : lockstep eq (mkdir h p) (mkdir h p).
Proof.
  two_states. exists []. rewrite !app_nil_r. unfold mkdir. cbn.
  by repeat (destruct (List.find _ _); [done|]).
Qed.

Lemma lockstep_call argv : lockstep eq (call h argv) (call h argv).
Proof.
  two_states. exists [ESpawn argv]. unfold call.
  destruct argv as [|prog [|script args]]; [done..|].
  destruct (String.eqb prog "bash").
  - cbn. by destruct (files d2 !! script).
  - destruct (_ && _); [|done]. destruct args as [|p [|]]; [done| |done].
    cbn. by destruct (_ || _).
Qed.

Lemma lockstep_deref l : lockstep eq (deref l) (deref l).
Proof.
  two_states. exists []. rewrite !app_nil_r. unfold deref. cbn.
  by destruct (h2 !! l).
Qed.

Lemma lockstep_modify_heap f :
  lockstep eq (modify (set_heap f)) (modify (set_heap f)).
Proof. two_states. exists []. by rewrite !app_nil_r. Qed.

Lemma lockstep_new_dict : lockstep eq new_dict new_dict.
Proof. two_states. exists []. by rewrite !app_nil_r. Qed.

Lemma lockstep_or_new_dict env : lockstep eq (or_new_dict env) (or_new_dict env).
Proof.
  unfold or_new_dict. destruct env as [l|]; [|apply lockstep_new_dict].
  eapply lockstep_bind; [apply lockstep_deref|]. intros d _ <-.
  destruct d; [apply lockstep_new_dict | apply lockstep_ret].
Qed.

Lemma lockstep_dict_setitem l k v : lockstep eq (dict_setitem l k v) (dict_setitem l k v).
Proof.
  unfold dict_setitem. eapply lockstep_bind; [apply lockstep_deref|]. intros d _ <-.
  apply lockstep_modify_heap.
Qed.

Lemma lockstep_guard_insert x s1 s2 :
  same_but_log s1 s2 ->
  lockstep eq (if bool_decide (x ∈ sys_path s1) then mret tt else sys_path_insert0 x)
              (if bool_decide (x ∈ sys_path s2) then mret tt else sys_path_insert0 x).
Proof.
  intros (_ & <- & _). case_bool_decide; [apply lockstep_ret|].
  two_states. exists []. by rewrite !app_nil_r.
Qed.

End Lockstep.

Ltac lockstep_step :=
  first
  [ apply lockstep_print | apply lockstep_do_shutdown | apply lockstep_write
  | apply lockstep_get | apply lockstep_open | apply lockstep_copyfileobj
  | apply lockstep_os_unlink | apply lockstep_os_rename | apply lockstep_mkdir
  | apply lockstep_call | apply lockstep_deref | apply lockstep_or_new_dict
  | apply lockstep_dict_setitem
  | eapply lockstep_bind;
    [ first [ by apply lockstep_urlopen | apply lockstep_get | lockstep_step ]
    | first [ intros ? ? Hsame; eapply lockstep_bind;
                [ by apply lockstep_guard_insert | intros _ _ _ ]
            | intros ? ? <- ] ] ].

Lemma run_url h u v prefix env s :
  web h u = web h v ->
  exists l,
    same_but_log (install_from_url h u prefix env s).2 (install_from_url h v prefix env s).2 /\
    log (install_from_url h u prefix env s).2 = (log s ++ EPrint (downloading u) :: l)%list /\
    log (install_from_url h v prefix env s).2 = (log s ++ EPrint (downloading v) :: l)%list /\
    (install_from_url h u prefix env s).1 = (install_from_url h v prefix env s).1.
Proof.
  intros Huv. unfold install_from_url.
  destruct (sys_version_info h) as [pymaj pymin].
  match goal with
  | |- context [(print ?a ≫= ?k1) s] =>
      match a with context [u] => idtac end;
      match goal with
      | |- context [(print ?b ≫= ?k2) s] =>
          match b with context [v] => idtac end;
          pose (m1 := k1 tt); pose (m2 := k2 tt);
          assert (Hk : lockstep eq m1 m2) by (subst m1 m2; repeat lockstep_step);
          change ((print a ≫= k1) s) with (m1 (emit (EPrint (downloading u)) s));
          change ((print b ≫= k2) s) with (m2 (emit (EPrint (downloading v)) s));
          clearbody m1 m2
      end
  end.
  destruct (Hk (emit (EPrint (downloading u)) s) (emit (EPrint (downloading v)) s))
    as (l & Hs & Hl1 & Hl2 & Hr); [done|].
  exists l. split; [exact Hs|]. rewrite Hl1, Hl2. cbn [log emit].
  rewrite <- !app_assoc. do 2 (split; [done|]).
  destruct (m1 _).1, (m2 _).1; by subst.
Qed.

(** X15. The address of the installer is used to fetch it and to say so,
    and for nothing else: two runs from the same state with addresses
    under which the host serves the same thing end alike, both returning
    or both raising the same exception, with the same disk, [sys.path]
    and dictionaries, and with the same effects in the same order after
    the first message. *)
Theorem url_names_download_only h u v prefix env s r1 s1 r2 s2 :
  web h u = web h v ->
  install_from_url h u prefix env s = (r1, s1) ->
  install_from_url h v prefix env s = (r2, s2) ->
  r1 = r2 /\ same_but_log s1 s2 /\
  exists l, log s1 = (log s ++ EPrint (downloading u) :: l)%list /\
            log s2 = (log s ++ EPrint (downloading v) :: l)%list.
Proof.
  intros Huv H1 H2.
  destruct (run_url h u v prefix env s Huv) as (l & Hs & Hl1 & Hl2 & Hr).
  rewrite H1, H2 in *. eauto.
Qed.

Lemma url_names_download_only_witness :
  let a := install_from_url Scenario.mirror Demo.url "/usr/local" None Demo.state0 in
  let b := install_from_url Scenario.mirror Scenario.mirror_url "/usr/local" None
             Demo.state0 in
  a.1 = b.1 /\ same_but_log a.2 b.2 /\
  exists l, log a.2 = (log Demo.state0 ++ EPrint (downloading Demo.url) :: l)%list /\
            log b.2 = (log Demo.state0
                         ++ EPrint (downloading Scenario.mirror_url) :: l)%list.
Proof.
  cbn zeta.
  apply (url_names_download_only Scenario.mirror Demo.url Scenario.mirror_url
           "/usr/local" None Demo.state0).
  - reflexivity.
  - vm_compute. reflexivity.
  - vm_compute. reflexivity.
Defined.

Lemma preset_run p :
  p ∈ presets -> exists u, forall h prefix env, p h prefix env = install_from_url h u prefix env.
Proof.
  unfold presets. rewrite !elem_of_cons, elem_of_nil.
  intros [->|[->|[->|[->|[->|[]]]]]]; eexists; reflexivity.
Qed.

(** X16. The entry points [install], [install_mambaforge],
    [install_miniforge], [install_miniconda] and [install_anaconda]
    differ in the installer they fetch and in nothing else: on a host
    that serves the same installer under every address, any two of them,
    run from the same state, both return or both raise the same
    exception, and leave the same disk, [sys.path] and dictionaries, and
    the same effects in the same order after the first message. *)
Theorem presets_differ_in_download_only h p q prefix env s r1 s1 r2 s2 :
  (forall u v, web h u = web h v) ->
  p ∈ presets -> q ∈ presets ->
  p h prefix env s = (r1, s1) ->
  q h prefix env s = (r2, s2) ->
  r1 = r2 /\ same_but_log s1 s2 /\
  exists m1 m2 l, log s1 = (log s ++ EPrint m1 :: l)%list /\
                  log s2 = (log s ++ EPrint m2 :: l)%list.
Proof.
  intros Hweb [u Hp]%preset_run [v Hq]%preset_run H1 H2.
  rewrite Hp in H1. rewrite Hq in H2.
  destruct (run_url h u v prefix env s (Hweb u v)) as (l & Hs & Hl1 & Hl2 & Hr).
  rewrite H1, H2 in *. eauto 8.
Qed.

Lemma presets_differ_in_download_only_witness :
  let a := install_miniconda Scenario.mirror "/usr/local" None Demo.state0 in
  let b := install_anaconda Scenario.mirror "/usr/local" None Demo.state0 in
  a.1 = b.1 /\ same_but_log a.2 b.2 /\
  exists m1 m2 l, log a.2 = (log Demo.state0 ++ EPrint m1 :: l)%list /\
                  log b.2 = (log Demo.state0 ++ EPrint m2 :: l)%list.
Proof.
  cbn zeta.
  apply (presets_differ_in_download_only Scenario.mirror install_miniconda
           install_anaconda "/usr/local" None Demo.state0).
  - intros u v. reflexivity.
  - unfold presets. rewrite !elem_of_cons. auto 10.
  - unfold presets. rewrite !elem_of_cons. auto 10.
  - vm_compute. reflexivity.
  - vm_compute. reflexivity.
Defined.

(** ** What a run can raise *)

(** Up to the point where the dictionary is looked at, no step touches
    the dictionaries. *)
Section StepHeaps.
Variables (h : Host) (s s' : State).

Lemma print_heap l a : print l s = (Ok a, s') -> heap s' = heap s.
Proof. by intros ->%print_Ok. Qed.
Lemma urlopen_heap url r : urlopen h url s = (Ok r, s') -> heap s' = heap s.
Proof. by intros [_ ->]%urlopen_Ok. Qed.
Lemma open_heap p mode f : open_ h p mode s = (Ok f, s') -> heap s' = heap s.
Proof. by intros [_ ->]%open_Ok. Qed.
Lemma write_heap f text a : write f text s = (Ok a, s') -> heap s' = heap s.
Proof. by intros ->%write_Ok. Qed.
Lemma copyfileobj_heap r out a : copyfileobj r out s = (Ok a, s') -> heap s' = heap s.
Proof. by intros [_ ->]%copyfileobj_Ok. Qed.
Lemma call_heap argv c : call h argv s = (Ok c, s') -> heap s' = heap s.
Proof.
  unfold call. destruct argv as [|prog [|script args]]; [by intros [= _ <-]..|].
  destruct (String.eqb prog "bash").
  - cbn. by destruct (files (disk s) !! script); intros [= _ <-].
  - destruct (_ && _); [|by intros [= _ <-]].
    destruct args as [|p [|]]; [by intros [= _ <-]| |by intros [= _ <-]].
    cbn. by destruct (_ || _); intros [= _ <-].
Qed.
Lemma os_unlink_heap p a : os_unlink p s = (Ok a, s') -> heap s' = heap s.
Proof. by intros ->%os_unlink_Ok. Qed.
Lemma os_rename_heap src dst a : os_rename src dst s = (Ok a, s') -> heap s' = heap s.
Proof. by intros (c & _ & ->)%os_rename_Ok. Qed.
Lemma mkdir_heap p a : mkdir h p s = (Ok a, s') -> heap s' = heap s.
Proof. by intros ->%mkdir_Ok. Qed.
Lemma get_heap a : get s = (Ok a, s') -> heap s' = heap s.
Proof. by intros [_ ->]%get_Ok. Qed.
Lemma guard_insert_heap (b : bool) x a :
  (if b then mret tt else sys_path_insert0 x) s = (Ok a, s') -> heap s' = heap s.
Proof. by intros ->%guard_insert_Ok. Qed.

Lemma mkdir_Raise_OSError p e : mkdir h p s = (Raise e, s') -> exists q, e = OSError q.
Proof.
  unfold mkdir. repeat (destruct (List.find _ _); [intros [= <- _]; eauto|]). discriminate.
Qed.

End StepHeaps.

Ltac heap_of Hm :=
  first [ apply print_heap in Hm | apply urlopen_heap in Hm | apply open_heap in Hm
        | apply copyfileobj_heap in Hm | apply call_heap in Hm | apply os_unlink_heap in Hm
        | apply mkdir_heap in Hm | apply write_heap in Hm | apply get_heap in Hm
        | apply guard_insert_heap in Hm | apply os_rename_heap in Hm ].

(** The cause of an exception raised by the step [Hm]. *)
Ltac cause Hm :=
  first
  [ exfalso; no_raise Hm; exact Hm
  | apply urlopen_Raise in Hm as [Hm _]; right; left; exact Hm
  | apply open_Raise in Hm as (_ & -> & _); left; eauto
  | apply copyfileobj_Raise in Hm as [Hm _]; right; right; eauto
  | apply os_unlink_Raise in Hm as (_ & -> & _); left; eauto
  | apply os_rename_Raise in Hm as [[[_ ->]|[_ ->]] _]; left; eauto
  | apply mkdir_Raise_OSError in Hm as [? ->]; left; eauto ].

Ltac keep_stream Hm :=
  try match type of Hm with
      | urlopen _ _ _ = _ =>
          let Hweb := fresh "Hweb" in pose proof (urlopen_Ok _ _ _ _ _ Hm) as [Hweb _]
      end.

(** [Hinv] is what is known of the dictionaries in the current state:
    they are those of [s], or the one of the caller is there. *)
Ltac estep H Hinv :=
  let Hm := fresh "Hm" in
  apply bind_inv in H as [(? & Hm & [= <-])|(? & ? & Hm & H)];
  [ cause Hm
  | keep_stream Hm; heap_of Hm; rewrite <- Hm in Hinv; clear Hm ].

(** X17. What a run can raise.  When [env] is [None] or a dictionary of
    the caller, an exception that comes out of [install_from_url] is the
    one [urlopen] raised, or the one that broke the stream while it was
    copied, or an [OSError] of the file system: the function raises
    nothing of its own, and no [KeyError] or [AssertionError]. *)
Theorem run_raises_download_or_oserror h url prefix env s e s' :
  (forall l, env = Some l -> is_Some (heap s !! l)) ->
  install_from_url h url prefix env s = (Raise e, s') ->
  (exists p, e = OSError p) \/ web h url = inl e \/
  (exists r, web h url = inr r /\ fault r = Some e).
Proof.
  intros Henv H. unfold install_from_url in H.
  destruct (sys_version_info h) as [pymaj pymin].
  assert (Hinv : forall l, env = Some l -> is_Some (heap s !! l)) by exact Henv.
  do 20 (estep H Hinv).
  apply bind_inv in H as [(? & Hm & [= <-])|(l & ? & Hm & H)].
  { apply or_new_dict_Raise in Hm as [(l & -> & Hl) _].
    destruct (Hinv l eq_refl) as [d Hd]. congruence. }
  apply or_new_dict_log in Hm as [_ Hl]. clear Hinv.
  apply bind_inv in H as [(? & Hm & [= <-])|(? & ? & Hm & H)].
  { exfalso. by eapply dict_setitem_noraise. }
  apply dict_setitem_log in Hm as [_ Hinv]. clear Hl.
  do 3 (estep H Hinv).
  apply bind_inv in H as [(? & Hm & [= <-])|(? & ? & Hm & H)].
  { apply deref_Raise in Hm as [Hm _]. destruct Hinv as [d Hd]. congruence. }
  apply deref_Ok in Hm as [_ ->].
  do 3 (estep H Hinv).
  exfalso. by apply do_shutdown_noraise in H.
Qed.

Lemma run_raises_download_or_oserror_witness :
  (exists p, OSError "/usr/bin/python3" = OSError p) \/
  web Scenario.locked Demo.url = inl (OSError "/usr/bin/python3") \/
  (exists r, web Scenario.locked Demo.url = inr r /\
             fault r = Some (OSError "/usr/bin/python3")).
Proof.
  apply (run_raises_download_or_oserror Scenario.locked Demo.url "/usr/local" None
           Demo.state0 (OSError "/usr/bin/python3")
           (install_from_url Scenario.locked Demo.url "/usr/local" None Demo.state0).2).
  - intros l [=].
  - vm_compute. reflexivity.
Defined.

(** ** A failure while the interpreter is replaced *)

Section PatchSteps.
Variables (s s' : State).




End PatchSteps.





